(** * lambda-mcp-adaptor: protocol dispatch and schema validation

    A shallow embedding of the JavaScript sources

      - [src/schema-utils.mjs]   (shape translation and argument validation),
      - [src/mcp-server.mjs]     (capability registry and protocol dispatcher),
      - [src/lambda-adapter.mjs] (transport boundary),

    followed by the properties of the specification stated over it.

    JavaScript values are a first-order datatype; objects are association
    lists in property order; an insertion-ordered [Map] is an association
    list with update in place; [throw]/[try]/[catch] is an error monad.
    Handlers are total functions: [await] is transparent and a handler that
    never settles is outside the model. *)

From Stdlib Require Import String Ascii List ZArith Bool Lia DecimalString.
Import ListNotations.
Local Open Scope string_scope.
Local Open Scope Z_scope.
Set Warnings "-register-all".

(* ===================================================================== *)
(** ** JavaScript values *)
(* ===================================================================== *)

(** JSON-shaped values plus [undefined].  Numbers are integer valued (the
    properties below never depend on fractional numbers).  An object is the list of
    its own enumerable properties, in property order, without repeated keys
    in well-formed values; every lookup takes the first binding. *)
Inductive value : Type :=
| VUndefined
| VNull
| VBool (b : bool)
| VNum (n : Z)
| VStr (s : string)
| VArr (elems : list value)
| VObj (props : list (string * value)).

Definition props := list (string * value).

(** ToBoolean. *)
Definition truthy (v : value) : bool :=
  match v with
  | VUndefined | VNull => false
  | VBool b => b
  | VNum n => negb (n =? 0)
  | VStr s => negb (s =? "")%string
  | VArr _ | VObj _ => true
  end.

(** [a || b]. *)
Definition js_or (a b : value) : value := if truthy a then a else b.

Definition is_undefined (v : value) : bool :=
  match v with VUndefined => true | _ => false end.

Definition is_nullish (v : value) : bool :=
  match v with VUndefined | VNull => true | _ => false end.

(** [v === s] for a string literal or a stored string [s]. *)
Definition strict_eq_str (v : value) (s : string) : bool :=
  match v with VStr s' => (s' =? s)%string | _ => false end.

Fixpoint assoc_get {A : Type} (k : string) (l : list (string * A)) : option A :=
  match l with
  | [] => None
  | (k', a) :: rest => if (k' =? k)%string then Some a else assoc_get k rest
  end.

(** [o[k] = v] on an object: an existing property keeps its position. *)
Fixpoint assoc_set {A : Type} (l : list (string * A)) (k : string) (a : A)
  : list (string * A) :=
  match l with
  | [] => [(k, a)]
  | (k', a') :: rest =>
      if (k' =? k)%string then (k, a) :: rest else (k', a') :: assoc_set rest k a
  end.

(** [o[k]] / [o.k] on a value that is not [null] or [undefined]: own
    properties of plain objects; anything else reads as [undefined]
    (inherited and built-in properties are not modelled). *)
Definition get_prop (o : value) (k : string) : value :=
  match o with
  | VObj ps => match assoc_get k ps with Some v => v | None => VUndefined end
  | _ => VUndefined
  end.

(** [o?.k]. *)
Definition opt_chain (o : value) (k : string) : value :=
  if is_nullish o then VUndefined else get_prop o k.

Definition obj_set (o : value) (k : string) (v : value) : value :=
  match o with
  | VObj ps => VObj (assoc_set ps k v)
  | _ => o
  end.

(** [{...base, ...over}] on string-valued header objects. *)
Definition spread {A : Type} (base over : list (string * A)) : list (string * A) :=
  fold_left (fun acc kv => assoc_set acc (fst kv) (snd kv)) over base.

Definition Z_to_string (n : Z) : string := NilZero.string_of_int (Z.to_int n).

(** ToString, as used by template literals. *)
Fixpoint ToString (v : value) : string :=
  match v with
  | VUndefined => "undefined"
  | VNull => "null"
  | VBool true => "true"
  | VBool false => "false"
  | VNum n => Z_to_string n
  | VStr s => s
  | VArr elems =>
      String.concat ","
        (map (fun e => if is_nullish e then "" else ToString e) elems)
  | VObj _ => "[object Object]"
  end.

(** [hay.includes(needle)]. *)
Fixpoint includes (hay needle : string) : bool :=
  String.prefix needle hay
  || match hay with
     | EmptyString => false
     | String _ rest => includes rest needle
     end.

(* ===================================================================== *)
(** ** Exceptions and the error monad *)
(* ===================================================================== *)

(** One entry of a [ZodError]'s [errors] array. *)
Record ZodIssue := mkIssue {
  issue_code : string;
  issue_path : list string;
  issue_message : string
}.

(** A thrown [Error] object: its [name], its [message], and the [errors]
    array when it has one (a [ZodError] does; a plain [Error] does not).
    Every thrown value is such an object; a [throw] of a value that is not
    an [Error] is outside the model. *)
Record JsError := mkError {
  err_name : string;
  err_message : string;
  err_errors : option (list ZodIssue)
}.

Definition new_Error (message : string) : JsError :=
  mkError "Error" message None.

Definition new_TypeError (message : string) : JsError :=
  mkError "TypeError" message None.

Inductive outcome (A : Type) : Type :=
| Return (a : A)
| Throw (e : JsError).
Arguments Return {A} a.
Arguments Throw {A} e.

Definition bind {A B : Type} (c : outcome A) (k : A -> outcome B) : outcome B :=
  match c with
  | Return a => k a
  | Throw e => Throw e
  end.

(** [try { c } catch (error) { h error }]. *)
Definition try_catch {A : Type} (c : outcome A) (h : JsError -> outcome A)
  : outcome A :=
  match c with
  | Return a => Return a
  | Throw e => h e
  end.

Declare Scope js_scope.
Delimit Scope js_scope with js.
Notation "x <- c ;; k" := (bind c (fun x => k))
  (at level 61, c at next level, right associativity) : js_scope.
Local Open Scope js_scope.

(** [o.k] where [o] may be [null] or [undefined]. *)
Definition get_prop_strict (o : value) (k : string) : outcome value :=
  if is_nullish o then
    Throw (new_TypeError
             ("Cannot read properties of " ++ ToString o
              ++ " (reading '" ++ k ++ "')"))
  else Return (get_prop o k).

(* ===================================================================== *)
(** ** Declared shapes (the part of zod the sources inspect) *)
(* ===================================================================== *)

(** One entry of [_def.checks] of a [ZodString], by its [kind]. *)
Inductive StringCheck : Type :=
| SMin (v : Z)
| SMax (v : Z)
| SEmail
| SUrl
| SUuid
| SOtherCheck (kind : string).

(** One entry of [_def.checks] of a [ZodNumber], by its [kind]. *)
Inductive NumberCheck : Type :=
| NMin (v : Z)
| NMax (v : Z)
| NInt
| NOtherCheck (kind : string).

(** The classes told apart by [instanceof], with the fields of [_def] that
    the sources read.  Every schema has an optional [description].
    [ZodOther] stands for every class the translator does not know. *)
Inductive ZodType : Type :=
| ZodOptional (innerType : ZodType) (description : option string)
| ZodDefault (innerType : ZodType) (defaultValue : value)
    (description : option string)
| ZodString (checks : list StringCheck) (description : option string)
| ZodNumber (checks : list NumberCheck) (description : option string)
| ZodBoolean (description : option string)
| ZodEnum (values : list string) (description : option string)
| ZodArray (type : ZodType) (minLength maxLength : option Z)
    (description : option string)
| ZodObject (shape : list (string * ZodType)) (description : option string)
| ZodOther (typeName : string) (description : option string).

(** A raw shape: [Object.entries(zodSchema)], in entry order. *)
Definition ZodRawShape := list (string * ZodType).

Definition description (t : ZodType) : option string :=
  match t with
  | ZodOptional _ d | ZodDefault _ _ d | ZodString _ d | ZodNumber _ d
  | ZodBoolean d | ZodEnum _ d | ZodArray _ _ _ d | ZodObject _ d
  | ZodOther _ d => d
  end.

(** Truthiness of an optional string property ([undefined] and the empty
    string are falsy). *)
Definition truthy_str (d : option string) : bool :=
  match d with
  | Some s => negb (s =? "")%string
  | None => false
  end.

(** [d || fallback] on an optional string property. *)
Definition str_or (d : option string) (fallback : string) : string :=
  match d with
  | Some s => if (s =? "")%string then fallback else s
  | None => fallback
  end.

(** [if (zodType.description) schema.description = zodType.description]. *)
Definition with_description (schema : value) (d : option string) : value :=
  if truthy_str d then
    match d with
    | Some s => obj_set schema "description" (VStr s)
    | None => schema
    end
  else schema.

(* ===================================================================== *)
(** ** schema-utils.mjs *)
(* ===================================================================== *)

(** [isZodOptional], lines 170-172. *)
Definition isZodOptional (zodType : ZodType) : bool :=
  match zodType with
  | ZodOptional _ _ | ZodDefault _ _ _ => true
  | _ => false
  end.

(** [hasZodDefault], lines 177-179. *)
Definition hasZodDefault (zodType : ZodType) : bool :=
  match zodType with
  | ZodDefault _ _ _ => true
  | _ => false
  end.

(** The [switch (check.kind)] of the [ZodString] branch, lines 54-70. *)
Definition string_check_step (schema : value) (check : StringCheck) : value :=
  match check with
  | SMin v => obj_set schema "minLength" (VNum v)
  | SMax v => obj_set schema "maxLength" (VNum v)
  | SEmail => obj_set schema "format" (VStr "email")
  | SUrl => obj_set schema "format" (VStr "uri")
  | SUuid => obj_set schema "format" (VStr "uuid")
  | SOtherCheck _ => schema
  end.

(** The [switch (check.kind)] of the [ZodNumber] branch, lines 87-97. *)
Definition number_check_step (schema : value) (check : NumberCheck) : value :=
  match check with
  | NMin v => obj_set schema "minimum" (VNum v)
  | NMax v => obj_set schema "maximum" (VNum v)
  | NInt => obj_set schema "type" (VStr "integer")
  | NOtherCheck _ => schema
  end.

(** The loop of [zodToJsonSchema], lines 16-22, over the remaining entries,
    with the [properties] object and the [required] array built so far;
    [convert] is the per-field translation. *)
Definition schema_entries (convert : ZodType -> value) :=
  fix go (entries : ZodRawShape) (properties : props) (required : list value)
    : props * list value :=
    match entries with
    | [] => (properties, required)
    | (key, schema) :: rest =>
        go rest
           (assoc_set properties key (convert schema))
           (if isZodOptional schema then required
            else (required ++ [VStr key])%list)
    end.

Definition object_schema (pr : props * list value) : value :=
  VObj [("type", VStr "object");
        ("properties", VObj (fst pr));
        ("required", VArr (snd pr))].

(** [convertZodTypeToJsonSchema], lines 34-165.  The [ZodObject] branch
    calls [zodToJsonSchema] on the nested shape; the mutual recursion is
    tied through [schema_entries]. *)
Fixpoint convertZodTypeToJsonSchema (zodType : ZodType) : value :=
  match zodType with
  | ZodOptional innerType _ => convertZodTypeToJsonSchema innerType
  | ZodDefault innerType defaultValue _ =>
      obj_set (convertZodTypeToJsonSchema innerType) "default" defaultValue
  | ZodString checks d =>
      with_description
        (fold_left string_check_step checks (VObj [("type", VStr "string")])) d
  | ZodNumber checks d =>
      with_description
        (fold_left number_check_step checks (VObj [("type", VStr "number")])) d
  | ZodBoolean d =>
      with_description (VObj [("type", VStr "boolean")]) d
  | ZodEnum values d =>
      with_description
        (VObj [("type", VStr "string"); ("enum", VArr (map VStr values))]) d
  | ZodArray type minLength maxLength d =>
      let schema :=
        VObj [("type", VStr "array");
              ("items", convertZodTypeToJsonSchema type)] in
      let schema :=
        match minLength with
        | Some v => obj_set schema "minItems" (VNum v)
        | None => schema
        end in
      let schema :=
        match maxLength with
        | Some v => obj_set schema "maxItems" (VNum v)
        | None => schema
        end in
      with_description schema d
  | ZodObject shape _ =>
      object_schema (schema_entries convertZodTypeToJsonSchema shape [] [])
  | ZodOther _ d =>
      VObj [("type", VStr "string");
            ("description", VStr (str_or d "Unknown type"))]
  end.

(** [zodToJsonSchema], lines 12-29. *)
Definition zodToJsonSchema (zodSchema : ZodRawShape) : value :=
  object_schema (schema_entries convertZodTypeToJsonSchema zodSchema [] []).

(** What the sources use of the zod library: [schema.parse(x)], which
    returns the parsed value or throws, and the [message] that the library
    computes for [new z.ZodError(issues)].  The library is not part of the
    repository; every property below holds for any implementation. *)
Class ZodLib := {
  zod_parse : ZodType -> value -> outcome value;
  ZodError_message : list ZodIssue -> string
}.

(** The built-in [JSON] object; [JSON_parse] is [None] on a [SyntaxError]. *)
Class JsonLib := {
  JSON_parse : string -> option value;
  JSON_stringify : value -> string
}.

Section SchemaValidation.
Context `{ZodLib}.

(** [new z.ZodError(issues)]. *)
Definition new_ZodError (issues : list ZodIssue) : JsError :=
  mkError "ZodError" (ZodError_message issues) (Some issues).

(** The [try] body of [validateWithZod] for one entry, lines 189-196. *)
Definition validate_field (key : string) (schema : ZodType) (args : value)
    (validated : props) : outcome props :=
  arg <- get_prop_strict args key ;;
  if is_undefined arg && isZodOptional schema then
    if hasZodDefault schema then
      v <- zod_parse schema VUndefined ;;
      Return (assoc_set validated key v)
    else Return validated
  else
    v <- zod_parse schema arg ;;
    Return (assoc_set validated key v).

(** The [catch] clause, lines 197-205. *)
Definition field_failure (key : string) (error : JsError) : JsError :=
  new_ZodError [mkIssue "custom" [key] (err_message error)].

(** The [for] loop, lines 187-206, over the remaining entries. *)
Fixpoint validate_entries (entries : ZodRawShape) (args : value)
    (validated : props) : outcome props :=
  match entries with
  | [] => Return validated
  | (key, schema) :: rest =>
      validated' <- try_catch (validate_field key schema args validated)
                      (fun error => Throw (field_failure key error)) ;;
      validate_entries rest args validated'
  end.

(** [validateWithZod], lines 184-209. *)
Definition validateWithZod (zodSchema : ZodRawShape) (args : value)
  : outcome value :=
  validated <- validate_entries zodSchema args [] ;;
  Return (VObj validated).

End SchemaValidation.

(** [Object.keys(o)]. *)
Definition own_keys (o : value) : list string :=
  match o with
  | VObj ps => map fst ps
  | _ => []
  end.

(* ===================================================================== *)
(** ** mcp-server.mjs *)
(* ===================================================================== *)

(** The constructor's argument; [None] is an absent property. *)
Record ConfigInput := mkConfigInput {
  input_name : option string;
  input_version : option string;
  input_description : option string;
  input_protocolVersion : option string
}.

Record Config := mkConfig {
  config_name : string;
  config_version : string;
  config_description : string;
  config_protocolVersion : string
}.

(** A handler function as the registration methods receive it: the function
    and its optional [description] property. *)
Record UserHandler := mkHandler {
  handler_call : value -> outcome value;
  handler_description : option string
}.

Record ToolEntry := mkTool {
  tool_name : string;
  tool_description : string;
  tool_inputSchema : value;
  tool_handler : value -> outcome value
}.

Record ResourceEntry := mkResource {
  resource_name : string;
  resource_uri : string;
  resource_description : string;
  resource_handler : value -> outcome value
}.

Record PromptEntry := mkPrompt {
  prompt_name : string;
  prompt_description : string;
  prompt_arguments : value;
  prompt_handler : value -> outcome value
}.

(** The server object: its configuration and the three [Map]s, each in
    insertion order. *)
Record MCPServer := mkServer {
  config : Config;
  tools : list (string * ToolEntry);
  resources : list (string * ResourceEntry);
  prompts : list (string * PromptEntry)
}.

(** [map.get(k)] on a [Map] whose keys are strings. *)
Definition Map_get {A : Type} (m : list (string * A)) (k : value) : option A :=
  match k with
  | VStr s => assoc_get s m
  | _ => None
  end.

(** [Array.from(map.values())]. *)
Definition Map_values {A : Type} (m : list (string * A)) : list A := map snd m.

(** A key of [{ k: config.k || dflt, ...config }]: the spread comes last,
    so a property that [config] has wins, whatever its value. *)
Definition config_field (given : option string) (dflt : string) : string :=
  let initial := str_or given dflt in
  match given with
  | Some s => s
  | None => initial
  end.

(** The constructor, lines 17-29. *)
Definition new_MCPServer (c : ConfigInput) : MCPServer :=
  {| config :=
       {| config_name := config_field (input_name c) "MCP Server";
          config_version := config_field (input_version c) "1.0.0";
          config_description :=
            config_field (input_description c) "MCP Server powered by AWS Lambda";
          config_protocolVersion :=
            config_field (input_protocolVersion c) "2025-03-26" |};
     tools := [];
     resources := [];
     prompts := [] |}.

(** The message built in the wrappers' [catch], lines 43-45 and 87-89. *)
Definition validation_error_text (errors : list ZodIssue) : string :=
  "Validation error: "
  ++ String.concat ", "
       (map (fun e => String.concat "." (issue_path e) ++ ": " ++ issue_message e)
            errors).

Section Registration.
Context `{ZodLib}.

(** [validatedHandler], lines 37-49 (and 81-93 for prompts). *)
Definition validatedHandler (inputSchema : ZodRawShape) (handler : UserHandler)
    (args : value) : outcome value :=
  try_catch
    (validatedArgs <- validateWithZod inputSchema args ;;
     handler_call handler validatedArgs)
    (fun error =>
       if (err_name error =? "ZodError")%string then
         match err_errors error with
         | Some errors => Throw (new_Error (validation_error_text errors))
         | None =>
             Throw (new_TypeError
                      "Cannot read properties of undefined (reading 'map')")
         end
       else Throw error).

(** [tool(name, inputSchema, handler)], lines 34-59. *)
Definition tool (this : MCPServer) (name : string) (inputSchema : ZodRawShape)
    (handler : UserHandler) : MCPServer :=
  let jsonSchema := zodToJsonSchema inputSchema in
  {| config := config this;
     tools :=
       assoc_set (tools this) name
         {| tool_name := name;
            tool_description :=
              str_or (handler_description handler) ("Tool: " ++ name);
            tool_inputSchema := jsonSchema;
            tool_handler := validatedHandler inputSchema handler |};
     resources := resources this;
     prompts := prompts this |}.

(** [prompt(name, inputSchema, handler)], lines 78-107. *)
Definition prompt (this : MCPServer) (name : string) (inputSchema : ZodRawShape)
    (handler : UserHandler) : MCPServer :=
  {| config := config this;
     tools := tools this;
     resources := resources this;
     prompts :=
       assoc_set (prompts this) name
         {| prompt_name := name;
            prompt_description :=
              str_or (handler_description handler) ("Prompt: " ++ name);
            prompt_arguments :=
              VArr (map (fun entry : string * ZodType =>
                           let (key, schema) := entry in
                           VObj [("name", VStr key);
                                 ("description",
                                  VStr (str_or (description schema)
                                          (key ++ " parameter")));
                                 ("required",
                                  VBool (negb (isZodOptional schema)))])
                        inputSchema);
            prompt_handler := validatedHandler inputSchema handler |} |}.

End Registration.

(** [resource(name, uri, handler)], lines 64-73. *)
Definition resource (this : MCPServer) (name uri : string)
    (handler : UserHandler) : MCPServer :=
  {| config := config this;
     tools := tools this;
     resources :=
       assoc_set (resources this) name
         {| resource_name := name;
            resource_uri := uri;
            resource_description :=
              str_or (handler_description handler) ("Resource: " ++ name);
            resource_handler := handler_call handler |};
     prompts := prompts this |}.

(** [handleInitialize], lines 138-152.  It takes no parameter: the
    [params] that [handleRequest] passes are dropped. *)
Definition handleInitialize (this : MCPServer) : outcome value :=
  Return
    (VObj [("protocolVersion", VStr (config_protocolVersion (config this)));
           ("capabilities",
            VObj [("tools", VObj [("listChanged", VBool true)]);
                  ("resources", VObj [("listChanged", VBool true)]);
                  ("prompts", VObj [("listChanged", VBool true)])]);
           ("serverInfo",
            VObj [("name", VStr (config_name (config this)));
                  ("version", VStr (config_version (config this)))]);
           ("instructions", VStr (config_description (config this)))]).

(** [handleToolsList], lines 157-165. *)
Definition handleToolsList (this : MCPServer) : outcome value :=
  Return
    (VObj [("tools",
            VArr (map (fun tool =>
                         VObj [("name", VStr (tool_name tool));
                               ("description", VStr (tool_description tool));
                               ("inputSchema", tool_inputSchema tool)])
                      (Map_values (tools this))))]).

(** The value returned by the [catch] of [handleToolsCall], lines 184-187. *)
Definition tool_error_result (error : JsError) : value :=
  VObj [("content",
         VArr [VObj [("type", VStr "text");
                     ("text", VStr ("Error: " ++ err_message error))]]);
        ("isError", VBool true)].

(** [handleToolsCall], lines 170-189. *)
Definition handleToolsCall (this : MCPServer) (params : value) : outcome value :=
  if negb (truthy (opt_chain params "name")) then
    Throw (new_Error "Tool name is required")
  else
    match Map_get (tools this) (get_prop params "name") with
    | None =>
        Throw (new_Error ("Tool not found: " ++ ToString (get_prop params "name")))
    | Some tool =>
        try_catch
          (tool_handler tool (js_or (get_prop params "arguments") (VObj [])))
          (fun error => Return (tool_error_result error))
    end.

(** [handleResourcesList], lines 194-202. *)
Definition handleResourcesList (this : MCPServer) : outcome value :=
  Return
    (VObj [("resources",
            VArr (map (fun resource =>
                         VObj [("uri", VStr (resource_uri resource));
                               ("name", VStr (resource_name resource));
                               ("description",
                                VStr (resource_description resource))])
                      (Map_values (resources this))))]).

(** The lookup of [handleResourcesRead], lines 212-214: the first resource,
    in registration order, whose [uri] is [===] to the requested one. *)
Definition find_resource (this : MCPServer) (uri : value) : option ResourceEntry :=
  find (fun r => strict_eq_str uri (resource_uri r)) (Map_values (resources this)).

(** [handleResourcesRead], lines 207-225. *)
Definition handleResourcesRead (this : MCPServer) (params : value)
  : outcome value :=
  if negb (truthy (opt_chain params "uri")) then
    Throw (new_Error "Resource URI is required")
  else
    match find_resource this (get_prop params "uri") with
    | None =>
        Throw (new_Error
                 ("Resource not found: " ++ ToString (get_prop params "uri")))
    | Some resource =>
        try_catch
          (resource_handler resource (get_prop params "uri"))
          (fun error =>
             Throw (new_Error ("Resource read error: " ++ err_message error)))
    end.

(** [handlePromptsList], lines 230-238. *)
Definition handlePromptsList (this : MCPServer) : outcome value :=
  Return
    (VObj [("prompts",
            VArr (map (fun prompt =>
                         VObj [("name", VStr (prompt_name prompt));
                               ("description", VStr (prompt_description prompt));
                               ("arguments", prompt_arguments prompt)])
                      (Map_values (prompts this))))]).

(** [handlePromptsGet], lines 243-259. *)
Definition handlePromptsGet (this : MCPServer) (params : value) : outcome value :=
  if negb (truthy (opt_chain params "name")) then
    Throw (new_Error "Prompt name is required")
  else
    match Map_get (prompts this) (get_prop params "name") with
    | None =>
        Throw (new_Error
                 ("Prompt not found: " ++ ToString (get_prop params "name")))
    | Some prompt =>
        try_catch
          (prompt_handler prompt (js_or (get_prop params "arguments") (VObj [])))
          (fun error =>
             Throw (new_Error ("Prompt execution error: " ++ err_message error)))
    end.

(** The [switch] of [handleRequest], lines 113-132, on the value of
    [request.method]; cases compare with [===]. *)
Definition dispatch (this : MCPServer) (method params : value) : outcome value :=
  if strict_eq_str method "initialize" then handleInitialize this
  else if strict_eq_str method "notifications/initialized" then Return VNull
  else if strict_eq_str method "tools/list" then handleToolsList this
  else if strict_eq_str method "tools/call" then handleToolsCall this params
  else if strict_eq_str method "resources/list" then handleResourcesList this
  else if strict_eq_str method "resources/read" then handleResourcesRead this params
  else if strict_eq_str method "prompts/list" then handlePromptsList this
  else if strict_eq_str method "prompts/get" then handlePromptsGet this params
  else Throw (new_Error ("Method not found: " ++ ToString method)).

(** [handleRequest], lines 112-133. *)
Definition handleRequest (this : MCPServer) (request : value) : outcome value :=
  method <- get_prop_strict request "method" ;;
  dispatch this method (get_prop request "params").

(* ===================================================================== *)
(** ** cors-config.mjs and lambda-adapter.mjs *)
(* ===================================================================== *)

Definition Headers := list (string * string).

Definition CORS_HEADERS : Headers :=
  [("Access-Control-Allow-Origin", "*");
   ("Access-Control-Allow-Headers",
    "Content-Type, Accept, Authorization, Mcp-Protocol-Version, Mcp-Session-Id");
   ("Access-Control-Allow-Methods", "GET, POST, OPTIONS")].

Definition BASIC_CORS_HEADERS : Headers :=
  [("Access-Control-Allow-Origin", "*")].

Definition withBasicCORS (additionalHeaders : Headers) : Headers :=
  spread BASIC_CORS_HEADERS additionalHeaders.

(** The platform response. *)
Record Response := mkResponse {
  statusCode : Z;
  headers : Headers;
  body : string
}.

(** The inbound platform event, as far as [createLambdaHandler] reads it:
    [httpMethod], [requestContext?.http?.method], [headers], [body]. *)
Record Event := mkEvent {
  event_httpMethod : option string;
  event_requestContext_http_method : option string;
  event_headers : option Headers;
  event_body : option string
}.

(** The choice of the JSON-RPC error code in the [catch] of
    [handleMCPRequest], lines 74-81. *)
Definition errorCode_of (message : string) : Z :=
  if includes message "Method not found" then -32601
  else if includes message "not found" || includes message "required" then -32602
  else -32603.

Section Transport.
Context `{JsonLib}.

(** [headers['content-type'] || headers['Content-Type'] || ''], line 38. *)
Definition contentType_of (headers : Headers) : string :=
  str_or (assoc_get "content-type" headers)
         (str_or (assoc_get "Content-Type" headers) "").

(** [createResponse], lines 12-21. *)
Definition createResponse (body : value) (statusCode : Z) (headers : Headers)
  : Response :=
  {| statusCode := statusCode;
     headers := spread [("Content-Type", "application/json")] headers;
     body := match body with
             | VStr s => s
             | _ => JSON_stringify body
             end |}.

(** [createErrorResponse], lines 26-32; an [undefined] [id] takes the
    default [null]. *)
Definition createErrorResponse (statusCode code : Z) (message : string)
    (headers : Headers) (id : value) : Response :=
  createResponse
    (VObj [("jsonrpc", VStr "2.0");
           ("error", VObj [("code", VNum code); ("message", VStr message)]);
           ("id", if is_undefined id then VNull else id)])
    statusCode headers.

(** [handleMCPRequest], lines 37-85.  The read of [jsonRpcMessage.jsonrpc]
    is outside every [try], so its [TypeError] on a [null] message
    escapes. *)
Definition handleMCPRequest (mcpServer : MCPServer) (body : option string)
    (headers corsHeaders : Headers) : outcome Response :=
  let contentType := contentType_of headers in
  if negb (includes contentType "application/json") then
    Return (createErrorResponse 400 (-32700)
              "Parse error: Content-Type must be application/json"
              corsHeaders VUndefined)
  else
    match JSON_parse (str_or body "{}") with
    | None =>
        Return (createErrorResponse 400 (-32700) "Parse error: Invalid JSON"
                  corsHeaders VUndefined)
    | Some jsonRpcMessage =>
        jsonrpc <- get_prop_strict jsonRpcMessage "jsonrpc" ;;
        if negb (truthy jsonrpc) || negb (strict_eq_str jsonrpc "2.0") then
          Return (createErrorResponse 400 (-32600)
                    "Invalid Request: missing jsonrpc field"
                    corsHeaders (get_prop jsonRpcMessage "id"))
        else if negb (truthy (get_prop jsonRpcMessage "method")) then
          Return (createErrorResponse 400 (-32600)
                    "Invalid Request: missing method field"
                    corsHeaders (get_prop jsonRpcMessage "id"))
        else
          match handleRequest mcpServer jsonRpcMessage with
          | Return result =>
              match result with
              | VNull => Return (createResponse (VStr "") 204 corsHeaders)
              | _ =>
                  Return (createResponse
                            (VObj [("jsonrpc", VStr "2.0");
                                   ("result", result);
                                   ("id", get_prop jsonRpcMessage "id")])
                            200 corsHeaders)
              end
          | Throw error =>
              Return (createErrorResponse 500
                        (errorCode_of (err_message error))
                        (err_message error)
                        corsHeaders (get_prop jsonRpcMessage "id"))
          end
    end.

(** [baseHandler] of [createLambdaHandler], lines 91-116 (the handler
    returned when no [auth] option is given). *)
Definition baseHandler (mcpServer : MCPServer) (event : Event) : Response :=
  let method :=
    match event_httpMethod event with
    | Some m => if (m =? "")%string then event_requestContext_http_method event
                else Some m
    | None => event_requestContext_http_method event
    end in
  let headers :=
    match event_headers event with
    | Some h => h
    | None => []
    end in
  let method_is m := match method with
                     | Some m' => (m' =? m)%string
                     | None => false
                     end in
  if method_is "OPTIONS" then createResponse (VStr "") 200 CORS_HEADERS
  else if method_is "POST" then
    match handleMCPRequest mcpServer (event_body event) headers CORS_HEADERS with
    | Return response => response
    | Throw _ =>
        createErrorResponse 500 (-32603) "Internal server error"
          (withBasicCORS [("Content-Type", "application/json")]) VUndefined
    end
  else if method_is "GET" then
    createErrorResponse 405 (-32000) "Method not allowed: Stateless mode"
      CORS_HEADERS VUndefined
  else
    createErrorResponse 405 (-32000)
      ("Method not allowed: "
       ++ match method with Some m => m | None => "undefined" end)
      CORS_HEADERS VUndefined.

End Transport.

(* ===================================================================== *)
(** ** Reference instances of the two libraries *)
(* ===================================================================== *)

(** An executable stand-in for zod's [parse] on the modelled classes, used
    to run the code on concrete inputs.  Type tests and the length, range
    and membership checks follow zod; the three string formats are
    approximated by a simple test each, and a thrown [ZodError] carries the
    messages of its issues joined by a semicolon in place of zod's
    pretty-printed text. *)
Module ZodModel.

Definition typeof (v : value) : string :=
  match v with
  | VUndefined => "undefined"
  | VNull => "null"
  | VBool _ => "boolean"
  | VNum _ => "number"
  | VStr _ => "string"
  | VArr _ => "array"
  | VObj _ => "object"
  end.

Definition message_of (issues : list ZodIssue) : string :=
  String.concat "; " (map issue_message issues).

Definition zod_error (issues : list ZodIssue) : JsError :=
  mkError "ZodError" (message_of issues) (Some issues).

Definition invalid_type (expected : string) (v : value) : JsError :=
  zod_error
    [mkIssue "invalid_type" []
       (if is_undefined v then "Required"
        else "Expected " ++ expected ++ ", received " ++ typeof v)].

Definition string_issue (s : string) (check : StringCheck) : list ZodIssue :=
  let len := Z.of_nat (String.length s) in
  match check with
  | SMin v =>
      if len <? v then [mkIssue "too_small" [] "String is too short"] else []
  | SMax v =>
      if v <? len then [mkIssue "too_big" [] "String is too long"] else []
  | SEmail =>
      if includes s "@" then [] else [mkIssue "invalid_string" [] "Invalid email"]
  | SUrl =>
      if includes s "://" then [] else [mkIssue "invalid_string" [] "Invalid url"]
  | SUuid =>
      if len =? 36 then [] else [mkIssue "invalid_string" [] "Invalid uuid"]
  | SOtherCheck _ => []
  end.

Definition number_issue (n : Z) (check : NumberCheck) : list ZodIssue :=
  match check with
  | NMin v =>
      if n <? v then [mkIssue "too_small" [] "Number is too small"] else []
  | NMax v =>
      if v <? n then [mkIssue "too_big" [] "Number is too big"] else []
  | NInt | NOtherCheck _ => []
  end.

Definition checked (v : value) (issues : list ZodIssue) : outcome value :=
  match issues with
  | [] => Return v
  | _ => Throw (zod_error issues)
  end.

Definition within (n : nat) (lo hi : option Z) : bool :=
  match lo with Some v => v <=? Z.of_nat n | None => true end
  && match hi with Some v => Z.of_nat n <=? v | None => true end.

Fixpoint parse (schema : ZodType) (v : value) : outcome value :=
  match schema with
  | ZodOptional innerType _ =>
      if is_undefined v then Return VUndefined else parse innerType v
  | ZodDefault innerType defaultValue _ =>
      if is_undefined v then parse innerType defaultValue
      else parse innerType v
  | ZodString checks _ =>
      match v with
      | VStr s => checked v (flat_map (string_issue s) checks)
      | _ => Throw (invalid_type "string" v)
      end
  | ZodNumber checks _ =>
      match v with
      | VNum n => checked v (flat_map (number_issue n) checks)
      | _ => Throw (invalid_type "number" v)
      end
  | ZodBoolean _ =>
      match v with
      | VBool _ => Return v
      | _ => Throw (invalid_type "boolean" v)
      end
  | ZodEnum values _ =>
      match v with
      | VStr s =>
          if existsb (String.eqb s) values then Return v
          else Throw (zod_error
                        [mkIssue "invalid_enum_value" [] "Invalid enum value"])
      | _ => Throw (invalid_type "string" v)
      end
  | ZodArray type minLength maxLength _ =>
      match v with
      | VArr elems =>
          parsed <-
            (fix each (l : list value) : outcome (list value) :=
               match l with
               | [] => Return []
               | x :: rest =>
                   y <- parse type x ;;
                   ys <- each rest ;;
                   Return (y :: ys)
               end) elems ;;
          if within (length elems) minLength maxLength then Return (VArr parsed)
          else Throw (zod_error
                        [mkIssue "too_small" [] "Array has a wrong length"])
      | _ => Throw (invalid_type "array" v)
      end
  | ZodObject shape _ =>
      match v with
      | VObj _ =>
          parsed <-
            (fix fields (l : ZodRawShape) : outcome props :=
               match l with
               | [] => Return []
               | (key, field) :: rest =>
                   x <- parse field (get_prop v key) ;;
                   xs <- fields rest ;;
                   Return (if is_undefined x then xs else (key, x) :: xs)
               end) shape ;;
          Return (VObj parsed)
      | _ => Throw (invalid_type "object" v)
      end
  | ZodOther _ _ => Return v
  end.

Definition lib : ZodLib :=
  {| zod_parse := parse; ZodError_message := message_of |}.

End ZodModel.

(** An executable stand-in for [JSON]: a compact serialiser for the value
    datatype, and a decoder that inverts it on a given table of messages and
    reports a syntax error on any other text. *)
Module JsonModel.

Definition dquote : string := String (ascii_of_nat 34) EmptyString.
Definition backslash : string := String (ascii_of_nat 92) EmptyString.

Fixpoint escape (s : string) : string :=
  match s with
  | EmptyString => EmptyString
  | String c rest =>
      if (c =? ascii_of_nat 34)%char || (c =? ascii_of_nat 92)%char
      then backslash ++ String c (escape rest)
      else String c (escape rest)
  end.

Definition quote (s : string) : string := dquote ++ escape s ++ dquote.

Fixpoint stringify (v : value) : string :=
  match v with
  | VUndefined | VNull => "null"
  | VBool true => "true"
  | VBool false => "false"
  | VNum n => Z_to_string n
  | VStr s => quote s
  | VArr elems => "[" ++ String.concat "," (map stringify elems) ++ "]"
  | VObj ps =>
      "{"
      ++ String.concat ","
           ((fix members (l : props) : list string :=
               match l with
               | [] => []
               | (k, x) :: rest =>
                   if is_undefined x then members rest
                   else (quote k ++ ":" ++ stringify x) :: members rest
               end) ps)
      ++ "}"
  end.

Definition parse_in (table : list value) (text : string) : option value :=
  find (fun v => (stringify v =? text)%string) table.

Definition lib (table : list value) : JsonLib :=
  {| JSON_parse := parse_in table; JSON_stringify := stringify |}.

End JsonModel.

(* ===================================================================== *)
(** ** A concrete server and concrete requests *)
(* ===================================================================== *)

Module Example.

Definition text_content (text : string) : value :=
  VObj [("content", VArr [VObj [("type", VStr "text"); ("text", VStr text)]])].

(** A tool handler that divides [a] by [b] and throws on a zero divisor. *)
Definition divide_handler : UserHandler :=
  mkHandler
    (fun args =>
       match get_prop args "a", get_prop args "b" with
       | VNum a, VNum b =>
           if b =? 0 then Throw (new_Error "Division by zero")
           else Return (text_content (Z_to_string (a / b)))
       | _, _ => Throw (new_TypeError "a and b must be numbers")
       end)
    (Some "Divide two numbers").

Definition divide_schema : ZodRawShape :=
  [("a", ZodNumber [] None); ("b", ZodNumber [] None)].

(** A resource handler that always fails. *)
Definition missing_file_handler : UserHandler :=
  mkHandler (fun _ => Throw (new_Error "File not found on disk")) None.

(** A resource handler that echoes its uri. *)
Definition readme_handler : UserHandler :=
  mkHandler
    (fun uri =>
       Return (VObj [("contents",
                      VArr [VObj [("uri", uri); ("text", VStr "hello")]])]))
    None.

Definition empty_server : MCPServer :=
  new_MCPServer (mkConfigInput (Some "Test Server") (Some "1.0.0")
                   (Some "Test MCP Server") None).

Definition server : MCPServer :=
  resource
    (resource
       (@tool ZodModel.lib empty_server "divide" divide_schema divide_handler)
       "readme" "file://readme" readme_handler)
    "missing" "file://missing" missing_file_handler.

Definition request (id : Z) (method : string) (params : value) : value :=
  VObj [("jsonrpc", VStr "2.0"); ("id", VNum id); ("method", VStr method);
        ("params", params)].

Definition divide_by_zero : value :=
  request 1 "tools/call"
    (VObj [("name", VStr "divide");
           ("arguments", VObj [("a", VNum 1); ("b", VNum 0)])]).

Definition read_missing : value :=
  request 2 "resources/read" (VObj [("uri", VStr "file://missing")]).

Definition read_without_uri : value :=
  request 3 "resources/read" (VObj []).

Definition read_unknown : value :=
  request 4 "resources/read" (VObj [("uri", VStr "file://nowhere")]).

Definition initialize_2024 : value :=
  request 5 "initialize"
    (VObj [("protocolVersion", VStr "2024-11-05");
           ("capabilities", VObj []);
           ("clientInfo",
            VObj [("name", VStr "test"); ("version", VStr "1.0.0")])]).

Definition unknown_method : value := request 6 "tools/remove" (VObj []).

Definition empty_method : value := request 7 "" (VObj []).

Definition messages : list value :=
  [divide_by_zero; read_missing; read_without_uri; read_unknown;
   initialize_2024; unknown_method; empty_method].

Definition json : JsonLib := JsonModel.lib messages.

Definition wire (message : value) : option string :=
  Some (JsonModel.stringify message).

Definition json_headers : Headers := [("Content-Type", "application/json")].

End Example.

(* ===================================================================== *)
(** ** Vocabulary of the properties *)
(* ===================================================================== *)

Definition is_obj (v : value) : Prop :=
  match v with VObj _ => True | _ => False end.

Definition is_int_check (c : NumberCheck) : bool :=
  match c with NInt => true | _ => false end.

(** The JSON-Schema type that section 4.1 of the specification assigns to
    a field kind, looking through optional and default wrappers; [None] for
    a kind outside the supported ones. *)
Fixpoint expected_json_type (field : ZodType) : option string :=
  match field with
  | ZodOptional innerType _ | ZodDefault innerType _ _ =>
      expected_json_type innerType
  | ZodString _ _ => Some "string"
  | ZodNumber checks _ =>
      Some (if existsb is_int_check checks then "integer" else "number")
  | ZodBoolean _ => Some "boolean"
  | ZodEnum _ _ => Some "string"
  | ZodArray _ _ _ _ => Some "array"
  | ZodObject _ _ => Some "object"
  | ZodOther _ _ => None
  end.

(** The field carries an optional wrapper or a default wrapper. *)
Definition has_wrapper (field : ZodType) : Prop :=
  match field with
  | ZodOptional _ _ | ZodDefault _ _ _ => True
  | _ => False
  end.

(** [Array.prototype.includes] on the elements of an array value. *)
Definition array_elems (v : value) : list value :=
  match v with VArr l => l | _ => [] end.

(** The three format tags of a string field, as the shape declares them
    (the [kind] of the check that [.email()], [.url()], [.uuid()] add). *)
Inductive FormatTag : Type := TagEmail | TagUrl | TagUuid.

Definition tag_check (tag : FormatTag) : StringCheck :=
  match tag with
  | TagEmail => SEmail
  | TagUrl => SUrl
  | TagUuid => SUuid
  end.

Definition tag_name (tag : FormatTag) : string :=
  match tag with
  | TagEmail => "email"
  | TagUrl => "url"
  | TagUuid => "uuid"
  end.

Definition is_format_check (c : StringCheck) : bool :=
  match c with
  | SEmail | SUrl | SUuid => true
  | _ => false
  end.

(** The entry fails on its own: processing it throws.  (Whether it throws
    does not depend on what was validated before it.) *)
Definition field_fails `{ZodLib} (args : value) (entry : string * ZodType) : bool :=
  match validate_field (fst entry) (snd entry) args [] with
  | Throw _ => true
  | Return _ => false
  end.

(** The declared fields that fail on the arguments, in iteration order. *)
Definition failing_fields `{ZodLib} (zodSchema : ZodRawShape) (args : value)
  : list string :=
  map fst (filter (field_fails args) zodSchema).

(** The field paths reported by a thrown error. *)
Definition reported_paths (e : JsError) : list (list string) :=
  match err_errors e with
  | Some issues => map issue_path issues
  | None => []
  end.

(** The transport decodes [body] to [request] and hands it to the
    dispatcher: the content type is JSON, the body parses, the protocol tag
    is ["2.0"] and the method is truthy (lines 38-56). *)
Definition accepted_envelope `{JsonLib} (body : option string) (headers : Headers)
    (request : value) : Prop :=
  includes (contentType_of headers) "application/json" = true
  /\ JSON_parse (str_or body "{}") = Some request
  /\ get_prop request "jsonrpc" = VStr "2.0"
  /\ truthy (get_prop request "method") = true.

(** The request ends in a thrown [Error] with the given message, which the
    transport, when it accepted the envelope, reports as a JSON-RPC error
    envelope with status 500. *)
Definition throws_protocol_error (this : MCPServer) (request : value)
    (message : string) : Prop :=
  handleRequest this request = Throw (new_Error message)
  /\ forall (J : JsonLib) body headers corsHeaders,
       accepted_envelope body headers request ->
       handleMCPRequest this body headers corsHeaders
       = Return (createErrorResponse 500 (errorCode_of message) message
                   corsHeaders (get_prop request "id")).

(** The allow-list of protocol versions that the specification speaks of.
    The dispatcher of [src/mcp-server.mjs] has none; the list is the one of
    the older bundle [dist/index.mjs], line 215. *)
Definition supportedVersions : list string := ["2024-11-05"; "2025-03-26"].

(** The negotiation as the specification words it: the client's version
    when it is on the allow-list, the server default otherwise. *)
Definition spec_negotiatedVersion (clientVersion : value) (serverDefault : string)
  : value :=
  if existsb (strict_eq_str clientVersion) supportedVersions then clientVersion
  else VStr serverDefault.

(** The capability flag [key] is advertised by an [initialize] result. *)
Definition advertised (result : value) (key : string) : Prop :=
  get_prop (get_prop result "capabilities") key <> VUndefined.

(** The dispatch table of section 4.4: each recognized method with the
    handler it is routed to (the two arguments are the server and
    [request.params]). *)
Definition dispatch_table : list (string * (MCPServer -> value -> outcome value)) :=
  [("initialize", fun this _ => handleInitialize this);
   ("notifications/initialized", fun _ _ => Return VNull);
   ("tools/list", fun this _ => handleToolsList this);
   ("tools/call", handleToolsCall);
   ("resources/list", fun this _ => handleResourcesList this);
   ("resources/read", handleResourcesRead);
   ("prompts/list", fun this _ => handlePromptsList this);
   ("prompts/get", handlePromptsGet)].

Definition recognized_methods : list string := map fst dispatch_table.

(* ===================================================================== *)
(** ** cors-config.mjs, auth/bearer-token.mjs and auth/middleware.mjs *)
(* ===================================================================== *)

(** [withCORS], cors-config.mjs lines 27-32. *)
Definition withCORS (additionalHeaders : Headers) : Headers :=
  spread CORS_HEADERS additionalHeaders.

(** The object a custom [validate] function returns
    ([AuthValidationResult]): [isValid], and the optional [user] and [error]
    properties; [None] is an absent property. *)
Record ValidationResult := mkValidationResult {
  result_isValid : bool;
  result_user : option value;
  result_error : option Response
}.

(** The authentication configuration: its [type], the optional [tokens]
    array and the optional [validate] function.  The function is called
    synchronously with the token and the event; it returns a result object,
    [null]/[undefined] ([None]) or throws. *)
Record AuthConfig := mkAuthConfig {
  auth_type : string;
  auth_tokens : option (list string);
  auth_validate : option (string -> Event -> outcome (option ValidationResult))
}.

(** The object [validateBearerToken] returns: [{isValid: false, error}] or
    [{isValid: true, user, token}]. *)
Inductive BearerResult : Type :=
| Rejected (error : Response)
| Authenticated (user : value) (token : string).

Definition bearer_isValid (r : BearerResult) : bool :=
  match r with
  | Rejected _ => false
  | Authenticated _ _ => true
  end.

(** [s.substring(n)]. *)
Fixpoint substring_from (n : nat) (s : string) : string :=
  match n, s with
  | O, _ => s
  | S n', String _ rest => substring_from n' rest
  | S _, EmptyString => EmptyString
  end.

(** The header that every 401 answer adds, with its quoted realm. *)
Definition WWW_Authenticate : Headers :=
  [("WWW-Authenticate",
    "Bearer realm=" ++ String (ascii_of_nat 34) "MCP Server"
    ++ String (ascii_of_nat 34) "")].

Section Authentication.
Context `{JsonLib}.

(** [createAuthErrorResponse], bearer-token.mjs lines 17-36. *)
Definition createAuthErrorResponse (statusCode : Z) (error message : string)
    (additionalHeaders : Headers) : Response :=
  {| statusCode := statusCode;
     headers :=
       withCORS (spread [("Content-Type", "application/json")] additionalHeaders);
     body := JSON_stringify (VObj [("error", VStr error);
                                   ("message", VStr message)]) |}.

(** [event.headers?.authorization || event.headers?.Authorization],
    lines 45-46. *)
Definition authHeader_of (event : Event) : option string :=
  match event_headers event with
  | None => None
  | Some h =>
      if truthy_str (assoc_get "authorization" h) then assoc_get "authorization" h
      else assoc_get "Authorization" h
  end.

(** [validateBearerToken], lines 44-144. *)
Definition validateBearerToken (event : Event) (config : AuthConfig)
  : BearerResult :=
  let authHeader := authHeader_of event in
  if negb (truthy_str authHeader) then
    Rejected (createAuthErrorResponse 401 "unauthorized"
                "Authorization header is required" WWW_Authenticate)
  else
    let authHeader := str_or authHeader "" in
    if negb (String.prefix "Bearer " authHeader) then
      Rejected (createAuthErrorResponse 401 "unauthorized"
                  "Bearer token is required" WWW_Authenticate)
    else
      let token := substring_from 7 authHeader in
      match auth_validate config with
      | Some validate =>
          match validate token event with
          | Return (Some result) =>
              if result_isValid result then
                Authenticated
                  (match result_user result with
                   | Some user => js_or user (VObj [("token", VStr token)])
                   | None => VObj [("token", VStr token)]
                   end)
                  token
              else
                Rejected
                  (match result_error result with
                   | Some error => error
                   | None =>
                       createAuthErrorResponse 401 "invalid_token"
                         "Invalid or expired token" WWW_Authenticate
                   end)
          | Return None =>
              Rejected (createAuthErrorResponse 401 "invalid_token"
                          "Invalid or expired token" WWW_Authenticate)
          | Throw _ =>
              Rejected (createAuthErrorResponse 500 "server_error"
                          "Authentication validation error" [])
          end
      | None =>
          let validTokens :=
            match auth_tokens config with
            | Some tokens => tokens
            | None => []
            end in
          if (length validTokens =? 0)%nat then
            Rejected (createAuthErrorResponse 500 "server_error"
                        "Authentication not configured" [])
          else if negb (existsb (String.eqb token) validTokens) then
            Rejected (createAuthErrorResponse 401 "invalid_token"
                        "Invalid or expired token" WWW_Authenticate)
          else Authenticated (VObj [("token", VStr token)]) token
      end.

(** [handleCORSPreflight], middleware.mjs lines 15-27; here
    [requestContext.http.method] is read before [httpMethod]. *)
Definition handleCORSPreflight (event : Event) : option Response :=
  let method :=
    match event_requestContext_http_method event with
    | Some m => if (m =? "")%string then event_httpMethod event else Some m
    | None => event_httpMethod event
    end in
  match method with
  | Some m =>
      if (m =? "OPTIONS")%string
      then Some {| statusCode := 200; headers := CORS_HEADERS; body := "" |}
      else None
  | None => None
  end.

(** What the middleware function answers: a response that ends the
    request, or [null] after it has set [event.user] and
    [event.authToken]. *)
Inductive MiddlewareResult : Type :=
| Respond (response : Response)
| Continue (user : value) (authToken : string).

(** The function returned by [createAuthMiddleware], lines 34-75. *)
Definition createAuthMiddleware (authConfig : AuthConfig) (event : Event)
  : MiddlewareResult :=
  match handleCORSPreflight event with
  | Some corsResponse => Respond corsResponse
  | None =>
      if (auth_type authConfig =? "bearer-token")%string then
        match validateBearerToken event authConfig with
        | Rejected error => Respond error
        | Authenticated user token => Continue user token
        end
      else
        Respond
          {| statusCode := 500;
             headers := withBasicCORS [("Content-Type", "application/json")];
             body := JSON_stringify
                       (VObj [("error", VStr "server_error");
                              ("message",
                               VStr "Unsupported authentication type")]) |}
  end.

(** The handler returned by [createAuthenticatedHandler], lines 83-116.
    The original handler receives the event together with the [user] and
    [authToken] that the middleware stored in it.  (Logging is left out.) *)
Definition createAuthenticatedHandler
    (originalHandler : Event -> value -> string -> outcome Response)
    (authConfig : AuthConfig) (event : Event) : Response :=
  match createAuthMiddleware authConfig event with
  | Respond authResponse => authResponse
  | Continue user authToken =>
      match originalHandler event user authToken with
      | Return response => response
      | Throw _ =>
          {| statusCode := 500;
             headers := withBasicCORS [("Content-Type", "application/json")];
             body := JSON_stringify
                       (VObj [("error", VStr "internal_server_error");
                              ("message",
                               VStr "An internal server error occurred")]) |}
      end
  end.

(** [createLambdaHandler], lambda-adapter.mjs lines 90-140: the base
    handler, wrapped by the authentication middleware when the [auth]
    option is given.  (The dynamic import of the middleware module is taken
    to succeed.) *)
Definition createLambdaHandler (mcpServer : MCPServer) (auth : option AuthConfig)
    (event : Event) : Response :=
  match auth with
  | Some authConfig =>
      createAuthenticatedHandler
        (fun event _ _ => Return (baseHandler mcpServer event))
        authConfig event
  | None => baseHandler mcpServer event
  end.

End Authentication.

(** [getStats], mcp-server.mjs lines 264-271 (the three sizes). *)
Definition getStats (this : MCPServer) : nat * nat * nat :=
  (length (tools this), length (resources this), length (prompts this)).

(* ===================================================================== *)
(** ** Vocabulary of the further properties *)
(* ===================================================================== *)

(** The declared fields without optional or default wrapper, in
    declaration order. *)
Definition required_keys (zodSchema : ZodRawShape) : list string :=
  map fst (filter (fun entry => negb (isZodOptional (snd entry))) zodSchema).

(** The type names of JSON Schema that the translator emits. *)
Definition json_schema_types : list string :=
  ["string"; "number"; "integer"; "boolean"; "array"; "object"].

(** The value of the last [min] check of a string, if there is one. *)
Fixpoint last_string_min (checks : list StringCheck) : option Z :=
  match checks with
  | [] => None
  | c :: rest =>
      match last_string_min rest, c with
      | Some v, _ => Some v
      | None, SMin v => Some v
      | None, _ => None
      end
  end.

(** The value of the last [max] check of a string, if there is one. *)
Fixpoint last_string_max (checks : list StringCheck) : option Z :=
  match checks with
  | [] => None
  | c :: rest =>
      match last_string_max rest, c with
      | Some v, _ => Some v
      | None, SMax v => Some v
      | None, _ => None
      end
  end.

(** The value of the last [min] check of a number, if there is one. *)
Fixpoint last_number_min (checks : list NumberCheck) : option Z :=
  match checks with
  | [] => None
  | c :: rest =>
      match last_number_min rest, c with
      | Some v, _ => Some v
      | None, NMin v => Some v
      | None, _ => None
      end
  end.

(** The value of the last [max] check of a number, if there is one. *)
Fixpoint last_number_max (checks : list NumberCheck) : option Z :=
  match checks with
  | [] => None
  | c :: rest =>
      match last_number_max rest, c with
      | Some v, _ => Some v
      | None, NMax v => Some v
      | None, _ => None
      end
  end.

(** A property that holds the number [v], or is absent. *)
Definition optional_number (o : option Z) : value :=
  match o with
  | Some v => VNum v
  | None => VUndefined
  end.

(** The absent optional field without default: the one case in which
    [validateWithZod] leaves a declared key out of its output. *)
Definition skipped_field (args : value) (key : string) (schema : ZodType) : bool :=
  is_undefined (get_prop args key)
  && isZodOptional schema && negb (hasZodDefault schema).

(** The servers that the registration interface can build: the
    constructor followed by any sequence of [tool], [resource] and [prompt]
    calls. *)
Inductive built `{ZodLib} : MCPServer -> Prop :=
| built_new (c : ConfigInput) : built (new_MCPServer c)
| built_tool this name inputSchema handler :
    built this -> built (tool this name inputSchema handler)
| built_resource this name uri handler :
    built this -> built (resource this name uri handler)
| built_prompt this name inputSchema handler :
    built this -> built (prompt this name inputSchema handler).

(** Every entry of a registry is stored under its own name, and no name
    is stored twice. *)
Definition well_keyed {A : Type} (name_of : A -> string) (m : list (string * A))
  : Prop :=
  NoDup (map fst m) /\ forall k a, In (k, a) m -> name_of a = k.

(** The [name] properties of the elements of the array [result[field]]. *)
Definition listed_names (result : value) (field : string) : list value :=
  map (fun e => get_prop e "name") (array_elems (get_prop result field)).

(** The names of the prompt arguments that are marked [required]. *)
Definition required_arguments (arguments : value) : list value :=
  map (fun a => get_prop a "name")
      (filter (fun a => truthy (get_prop a "required")) (array_elems arguments)).

(** The HTTP method that [baseHandler] reads off the event:
    [event.httpMethod || event.requestContext?.http?.method]. *)
Definition http_method (event : Event) : option string :=
  match event_httpMethod event with
  | Some m => if (m =? "")%string then event_requestContext_http_method event
              else Some m
  | None => event_requestContext_http_method event
  end.

(** [config.tokens || []]. *)
Definition valid_tokens (config : AuthConfig) : list string :=
  match auth_tokens config with
  | Some tokens => tokens
  | None => []
  end.

(* ===================================================================== *)
(** * Properties *)
(* ===================================================================== *)

(** ** Objects and strings *)

Section AssocFacts.
Context {A : Type}.
Implicit Types (l : list (string * A)) (k : string) (a : A).

Lemma assoc_get_set_eq l k a : assoc_get k (assoc_set l k a) = Some a.
Proof.
  induction l as [|[k' a'] l IH]; simpl.
  - now rewrite String.eqb_refl.
  - destruct (k' =? k)%string eqn:E; simpl.
    + now rewrite String.eqb_refl.
    + now rewrite E.
Qed.

Lemma assoc_get_set_ne l k k' a :
  k <> k' -> assoc_get k' (assoc_set l k a) = assoc_get k' l.
Proof.
  intros Hne. induction l as [|[k0 a0] l IH]; simpl.
  - apply String.eqb_neq in Hne. now rewrite Hne.
  - destruct (k0 =? k)%string eqn:E; simpl.
    + apply String.eqb_eq in E. subst k0.
      apply String.eqb_neq in Hne. now rewrite Hne.
    + now rewrite IH.
Qed.

Lemma assoc_get_absent l k : ~ In k (map fst l) -> assoc_get k l = None.
Proof.
  induction l as [|[k' a'] l IH]; simpl; intros Hn; [reflexivity|].
  destruct (k' =? k)%string eqn:E.
  - apply String.eqb_eq in E. tauto.
  - apply IH. tauto.
Qed.

Lemma assoc_set_keys l k a k' :
  In k' (map fst (assoc_set l k a)) -> k' = k \/ In k' (map fst l).
Proof.
  induction l as [|[k0 a0] l IH]; simpl.
  - intros [<-|[]]. now left.
  - destruct (k0 =? k)%string eqn:E; simpl.
    + apply String.eqb_eq in E. subst k0. tauto.
    + intros [<-|Hin]; [tauto|]. destruct (IH Hin); tauto.
Qed.

Lemma assoc_set_fresh l k a :
  ~ In k (map fst l) -> map fst (assoc_set l k a) = (map fst l ++ [k])%list.
Proof.
  induction l as [|[k0 a0] l IH]; simpl; intros Hn; [reflexivity|].
  destruct (k0 =? k)%string eqn:E.
  - apply String.eqb_eq in E. tauto.
  - simpl. f_equal. apply IH. tauto.
Qed.

End AssocFacts.

Lemma obj_set_is_obj o k v : is_obj o -> is_obj (obj_set o k v).
Proof. destruct o; simpl; tauto. Qed.

Lemma get_obj_set_eq o k v : is_obj o -> get_prop (obj_set o k v) k = v.
Proof.
  destruct o; simpl; try tauto. intros _. now rewrite assoc_get_set_eq.
Qed.

Lemma get_obj_set_ne o k k' v :
  k <> k' -> get_prop (obj_set o k v) k' = get_prop o k'.
Proof.
  intros Hne. destruct o; simpl; try reflexivity.
  now rewrite assoc_get_set_ne.
Qed.

Lemma prefix_app (p s : string) : String.prefix p (p ++ s) = true.
Proof.
  induction p as [|c p IH]; simpl.
  - now destruct s.
  - destruct (ascii_dec c c) as [_|Hn]; [exact IH | now elim Hn].
Qed.

Lemma includes_prefix (p s : string) : includes (p ++ s) p = true.
Proof.
  destruct p as [|c p].
  - destruct s; reflexivity.
  - cbn [includes append]. change (String c (p ++ s)) with (String c p ++ s).
    now rewrite prefix_app.
Qed.

Lemma includes_app_r (p s needle : string) :
  includes s needle = true -> includes (p ++ s) needle = true.
Proof.
  intros Hs. induction p as [|c p IH]; [exact Hs|].
  cbn [append includes]. rewrite IH. apply orb_true_r.
Qed.

Lemma includes_middle (p needle s : string) :
  includes (p ++ needle ++ s) needle = true.
Proof. apply includes_app_r, includes_prefix. Qed.

(** ** The shape translator *)

Lemma with_description_is_obj schema d :
  is_obj schema -> is_obj (with_description schema d).
Proof.
  unfold with_description.
  destruct (truthy_str d); [|tauto].
  destruct d as [s|]; [apply obj_set_is_obj | tauto].
Qed.

Lemma get_with_description schema d k :
  k <> "description" ->
  get_prop (with_description schema d) k = get_prop schema k.
Proof.
  intros Hne. unfold with_description.
  destruct (truthy_str d); [|reflexivity].
  destruct d as [s|]; [|reflexivity].
  apply get_obj_set_ne. congruence.
Qed.

Lemma string_check_step_is_obj schema c :
  is_obj schema -> is_obj (string_check_step schema c).
Proof. destruct c; simpl; auto using obj_set_is_obj. Qed.

Lemma string_checks_is_obj checks schema :
  is_obj schema -> is_obj (fold_left string_check_step checks schema).
Proof.
  revert schema. induction checks as [|c checks IH]; simpl; intros schema Ho.
  - exact Ho.
  - apply IH, string_check_step_is_obj, Ho.
Qed.

Lemma number_check_step_is_obj schema c :
  is_obj schema -> is_obj (number_check_step schema c).
Proof. destruct c; simpl; auto using obj_set_is_obj. Qed.

(** The checks of a string never touch [type]. *)
Lemma string_checks_type checks schema :
  get_prop (fold_left string_check_step checks schema) "type"
  = get_prop schema "type".
Proof.
  revert schema. induction checks as [|c checks IH]; simpl; intros schema.
  - reflexivity.
  - rewrite IH. destruct c; simpl; try reflexivity;
      apply get_obj_set_ne; discriminate.
Qed.

(** The checks of a number turn [type] into [integer] exactly when one of
    them is the [int] check. *)
Lemma number_checks_type checks schema :
  is_obj schema ->
  get_prop (fold_left number_check_step checks schema) "type"
  = if existsb is_int_check checks then VStr "integer"
    else get_prop schema "type".
Proof.
  revert schema. induction checks as [|c checks IH]; simpl; intros schema Ho.
  - reflexivity.
  - rewrite IH by now apply number_check_step_is_obj.
    destruct c; simpl.
    + destruct (existsb is_int_check checks); [reflexivity|].
      apply get_obj_set_ne; discriminate.
    + destruct (existsb is_int_check checks); [reflexivity|].
      apply get_obj_set_ne; discriminate.
    + rewrite get_obj_set_eq by exact Ho.
      now destruct (existsb is_int_check checks).
    + reflexivity.
Qed.

Lemma convert_type field ty :
  expected_json_type field = Some ty ->
  get_prop (convertZodTypeToJsonSchema field) "type" = VStr ty.
Proof.
  revert ty.
  induction field as
    [inner IH d | inner IH dv d | checks d | checks d | d | vs d
    | elem _ lo hi d | shape d | tn d];
    intros ty Hty; cbn [convertZodTypeToJsonSchema expected_json_type] in *.
  - now apply IH.
  - rewrite get_obj_set_ne by discriminate. now apply IH.
  - injection Hty as <-.
    rewrite get_with_description by discriminate.
    now rewrite string_checks_type.
  - injection Hty as <-.
    rewrite get_with_description by discriminate.
    rewrite number_checks_type by exact I.
    now destruct (existsb is_int_check checks).
  - injection Hty as <-. now rewrite get_with_description by discriminate.
  - injection Hty as <-. now rewrite get_with_description by discriminate.
  - injection Hty as <-. rewrite get_with_description by discriminate.
    destruct lo, hi; simpl; reflexivity.
  - injection Hty as <-. reflexivity.
  - discriminate.
Qed.

(** C6 (P1, shape round-trip).  For a shape whose only field [key] is of a
    supported kind, the translated description gives that property the
    JSON-Schema type of the kind, and its [required] array is [[key]] when
    the field has no optional and no default wrapper and is empty
    otherwise, so that it contains [key] exactly when there is no wrapper. *)
Theorem C6_single_field_translation (key : string) (field : ZodType)
    (ty : string) :
  expected_json_type field = Some ty ->
  get_prop (get_prop (get_prop (zodToJsonSchema [(key, field)]) "properties") key)
           "type" = VStr ty
  /\ (In (VStr key)
         (array_elems (get_prop (zodToJsonSchema [(key, field)]) "required"))
      <-> ~ has_wrapper field).
Proof.
  intros Hty. unfold zodToJsonSchema, object_schema.
  cbn [schema_entries fst snd assoc_set app].
  split.
  - cbn [get_prop assoc_get String.eqb Ascii.eqb Bool.eqb].
    rewrite String.eqb_refl. now apply convert_type.
  - cbn [get_prop assoc_get String.eqb Ascii.eqb Bool.eqb array_elems].
    destruct field; cbn [isZodOptional has_wrapper In]; split; intro Hx;
      try tauto; try (exfalso; apply Hx; exact I); now left.
Qed.

(** C6, at the shape [{ age: z.number().int() }] of the test suite. *)
Lemma C6_single_field_translation_witness :
  get_prop
    (get_prop
       (get_prop (zodToJsonSchema [("age", ZodNumber [NInt; NMin 0] None)])
                 "properties") "age") "type" = VStr "integer"
  /\ (In (VStr "age")
         (array_elems
            (get_prop (zodToJsonSchema [("age", ZodNumber [NInt; NMin 0] None)])
                      "required"))
      <-> ~ has_wrapper (ZodNumber [NInt; NMin 0] None)).
Proof.
  exact (C6_single_field_translation "age" (ZodNumber [NInt; NMin 0] None)
           "integer" eq_refl).
Defined.

(** Checks that are not format checks leave [format] alone. *)
Lemma string_checks_format_kept checks schema :
  (forall c, In c checks -> is_format_check c = false) ->
  get_prop (fold_left string_check_step checks schema) "format"
  = get_prop schema "format".
Proof.
  revert schema. induction checks as [|c checks IH]; simpl; intros schema Hno.
  - reflexivity.
  - rewrite IH by auto.
    assert (Hc : is_format_check c = false) by auto.
    destruct c; simpl in *; try discriminate; try reflexivity;
      apply get_obj_set_ne; discriminate.
Qed.

(** C7, as amended.  A string field whose last format check is one of the
    tags email, url, uuid is translated with [format] equal to ["email"],
    ["uri"], ["uuid"] respectively: the url tag is renamed to the
    JSON-Schema format name, the other two are kept. *)
Theorem C7_format_of_last_tag (tag : FormatTag) (before after : list StringCheck)
    (d : option string) :
  (forall c, In c after -> is_format_check c = false) ->
  get_prop (convertZodTypeToJsonSchema
              (ZodString (before ++ tag_check tag :: after) d)) "format"
  = VStr (match tag with
          | TagEmail => "email"
          | TagUrl => "uri"
          | TagUuid => "uuid"
          end).
Proof.
  intros Hafter. cbn [convertZodTypeToJsonSchema].
  rewrite get_with_description by discriminate.
  rewrite fold_left_app. cbn [fold_left].
  rewrite string_checks_format_kept by exact Hafter.
  assert (Ho : is_obj (fold_left string_check_step before
                         (VObj [("type", VStr "string")])))
    by (apply string_checks_is_obj; exact I).
  destruct tag; cbn [tag_check string_check_step]; now apply get_obj_set_eq.
Qed.

(** C7 as amended, at [z.string().min(1).url().max(200)]. *)
Lemma C7_format_of_last_tag_witness :
  get_prop (convertZodTypeToJsonSchema
              (ZodString ([SMin 1] ++ tag_check TagUrl :: [SMax 200]) None))
           "format" = VStr "uri".
Proof.
  apply (C7_format_of_last_tag TagUrl [SMin 1] [SMax 200] None).
  intros c [<-|[]]. reflexivity.
Defined.

(** C7 as stated fails: a field declared with the tag url, [z.string().url()],
    is translated with format ["uri"], which is not the tag ["url"]; so it is
    false that every tagged string field carries its tag as format. *)
Lemma C7_url_tag_counterexample :
  get_prop (convertZodTypeToJsonSchema (ZodString [tag_check TagUrl] None))
           "format" = VStr "uri"
  /\ ~ (forall (tag : FormatTag) (d : option string),
          get_prop (convertZodTypeToJsonSchema (ZodString [tag_check tag] d))
                   "format" = VStr (tag_name tag)).
Proof.
  split; [reflexivity|].
  intros Hall. specialize (Hall TagUrl None). discriminate Hall.
Qed.

(** ** The argument validator *)

Section ValidatorFacts.
Context `{ZodLib}.

(** A field that is processed without an exception either leaves the
    output untouched (an absent optional field without default) or sets
    its own key. *)
Lemma validate_field_return key schema args validated out :
  validate_field key schema args validated = Return out ->
  out = validated \/ exists v, out = assoc_set validated key v.
Proof.
  unfold validate_field, get_prop_strict.
  destruct (is_nullish args); [discriminate|]. cbn [bind].
  destruct (is_undefined (get_prop args key) && isZodOptional schema).
  - destruct (hasZodDefault schema).
    + destruct (zod_parse schema VUndefined) as [v|e]; cbn [bind]; [|discriminate].
      intros [= <-]. right. now exists v.
    + intros [= <-]. now left.
  - destruct (zod_parse schema (get_prop args key)) as [v|e]; cbn [bind];
      [|discriminate].
    intros [= <-]. right. now exists v.
Qed.

(** A field that the arguments supply always sets its key. *)
Lemma validate_field_present key schema args validated out :
  get_prop args key <> VUndefined ->
  validate_field key schema args validated = Return out ->
  exists v, out = assoc_set validated key v.
Proof.
  intros Hpresent. unfold validate_field, get_prop_strict.
  destruct (is_nullish args); [discriminate|]. cbn [bind].
  destruct (get_prop args key) eqn:Harg; try congruence; cbn [is_undefined andb];
    (destruct (zod_parse schema _) as [v|e]; cbn [bind]; [|discriminate];
     intros [= <-]; now exists v).
Qed.

Lemma validate_entries_step key schema rest args validated out :
  validate_entries ((key, schema) :: rest) args validated = Return out ->
  exists mid,
    validate_field key schema args validated = Return mid
    /\ validate_entries rest args mid = Return out.
Proof.
  cbn [validate_entries].
  destruct (validate_field key schema args validated) as [mid|e];
    cbn [try_catch bind]; [|discriminate].
  intros Hrest. now exists mid.
Qed.

(** Every key of the output was in the output before the loop or is
    declared by one of the entries. *)
Lemma validate_entries_keys entries args validated out k :
  validate_entries entries args validated = Return out ->
  In k (map fst out) ->
  In k (map fst validated) \/ In k (map fst entries).
Proof.
  revert validated.
  induction entries as [|[key schema] rest IH]; intros validated Hrun Hin.
  - injection Hrun as <-. now left.
  - apply validate_entries_step in Hrun as (mid & Hfield & Hrest).
    destruct (IH _ Hrest Hin) as [Hmid|Hlater]; [|right; now right].
    apply validate_field_return in Hfield as [->|[v ->]]; [now left|].
    apply assoc_set_keys in Hmid as [->|Hold]; [right; now left | now left].
Qed.

(** When the arguments supply every declared field and no key repeats,
    the loop appends the declared keys in order. *)
Lemma validate_entries_all_keys entries args validated out :
  NoDup (map fst validated ++ map fst entries) ->
  (forall k, In k (map fst entries) -> get_prop args k <> VUndefined) ->
  validate_entries entries args validated = Return out ->
  map fst out = (map fst validated ++ map fst entries)%list.
Proof.
  revert validated.
  induction entries as [|[key schema] rest IH]; intros validated Hnd Hall Hrun.
  - injection Hrun as <-. cbn [map]. now rewrite app_nil_r.
  - apply validate_entries_step in Hrun as (mid & Hfield & Hrest).
    apply validate_field_present in Hfield as [v ->];
      [|apply Hall; now left].
    cbn [map fst] in Hnd |- *.
    assert (Hfresh : ~ In key (map fst validated)).
    { intros Hin. apply NoDup_remove_2 in Hnd. apply Hnd.
      apply in_or_app. now left. }
    assert (Hkeys : map fst (assoc_set validated key v)
                    = (map fst validated ++ [key])%list)
      by now apply assoc_set_fresh.
    rewrite (IH (assoc_set validated key v)).
    + rewrite Hkeys, <- app_assoc. reflexivity.
    + rewrite Hkeys, <- app_assoc. exact Hnd.
    + intros k Hk. apply Hall. now right.
    + exact Hrest.
Qed.

(** The loop stops at the first entry whose processing throws, whatever
    follows it. *)
Lemma validate_entries_stop before key schema after args validated mid error :
  validate_entries before args validated = Return mid ->
  validate_field key schema args mid = Throw error ->
  validate_entries (before ++ (key, schema) :: after)%list args validated
  = Throw (field_failure key error).
Proof.
  revert validated.
  induction before as [|[k s] before IH]; intros validated Hbefore Hfield.
  - injection Hbefore as <-. cbn [app validate_entries].
    now rewrite Hfield.
  - apply validate_entries_step in Hbefore as (mid' & Hk & Hrest).
    cbn [app validate_entries]. rewrite Hk. cbn [try_catch bind].
    now apply IH.
Qed.

(** A failure of the loop comes from exactly one entry. *)
Lemma validate_entries_throw entries args validated e :
  validate_entries entries args validated = Throw e ->
  exists before key schema after mid error,
    entries = (before ++ (key, schema) :: after)%list
    /\ validate_entries before args validated = Return mid
    /\ validate_field key schema args mid = Throw error
    /\ e = field_failure key error.
Proof.
  revert validated.
  induction entries as [|[key schema] rest IH]; intros validated Hrun.
  - discriminate.
  - cbn [validate_entries] in Hrun.
    destruct (validate_field key schema args validated) as [mid|error] eqn:Hfield;
      cbn [try_catch bind] in Hrun.
    + destruct (IH _ Hrun) as (before & k & s & after & mid' & error & -> & Hb & Hf & ->).
      exists ((key, schema) :: before), k, s, after, mid', error.
      repeat split; try assumption.
      cbn [validate_entries]. now rewrite Hfield.
    + injection Hrun as <-.
      exists [], key, schema, rest, validated, error. now repeat split.
Qed.

End ValidatorFacts.

(** C5 (P2, validation drops unknown fields).  When validation succeeds,
    every key of the validated output is declared by the shape, a key that
    the shape does not declare reads as [undefined] in the output, and, when
    the arguments supply every declared field (and no declared key
    repeats), the output has exactly the declared keys, in declaration
    order. *)
Theorem C5_validated_keys_are_declared `{ZodLib} (zodSchema : ZodRawShape)
    (args validated : value) :
  validateWithZod zodSchema args = Return validated ->
  (forall k, In k (own_keys validated) -> In k (map fst zodSchema))
  /\ (forall k, ~ In k (map fst zodSchema) -> get_prop validated k = VUndefined)
  /\ (NoDup (map fst zodSchema) ->
      (forall k, In k (map fst zodSchema) -> get_prop args k <> VUndefined) ->
      own_keys validated = map fst zodSchema).
Proof.
  unfold validateWithZod.
  destruct (validate_entries zodSchema args []) as [out|e] eqn:Hrun;
    cbn [bind]; [|discriminate].
  intros [= <-]. cbn [own_keys get_prop].
  assert (Hsub : forall k, In k (map fst out) -> In k (map fst zodSchema)).
  { intros k Hin.
    destruct (validate_entries_keys _ _ _ _ k Hrun Hin) as [[]|Hk]. exact Hk. }
  repeat split.
  - exact Hsub.
  - intros k Hk. rewrite assoc_get_absent; [reflexivity|]. auto.
  - intros Hnd Hall.
    now apply (validate_entries_all_keys zodSchema args [] out).
Qed.

(** C5, at the shape [{a, b}] and the arguments [{a: 1, b: 2, c: 3}] of P2,
    run with the reference parser: the output is [{a: 1, b: 2}]. *)
Lemma C5_validated_keys_are_declared_witness :
  @validateWithZod ZodModel.lib
    [("a", ZodNumber [] None); ("b", ZodNumber [] None)]
    (VObj [("a", VNum 1); ("b", VNum 2); ("c", VNum 3)])
  = Return (VObj [("a", VNum 1); ("b", VNum 2)])
  /\ own_keys (VObj [("a", VNum 1); ("b", VNum 2)]) = ["a"; "b"]
  /\ get_prop (VObj [("a", VNum 1); ("b", VNum 2)]) "c" = VUndefined.
Proof.
  pose proof (@C5_validated_keys_are_declared ZodModel.lib
                [("a", ZodNumber [] None); ("b", ZodNumber [] None)]
                (VObj [("a", VNum 1); ("b", VNum 2); ("c", VNum 3)])
                (VObj [("a", VNum 1); ("b", VNum 2)]) eq_refl)
    as (_ & Hdrop & Hexact).
  split; [reflexivity|]. split.
  - apply Hexact.
    + repeat constructor; simpl; intuition discriminate.
    + intros k [<-|[<-|[]]]; discriminate.
  - apply Hdrop. simpl. intuition discriminate.
Defined.

(** C8, as amended.  Validation stops at the first field, in iteration
    order, whose processing throws: when validation fails, the shape splits
    into fields that were processed without failure, the failing field, and
    the rest; the thrown [ZodError] carries exactly one entry, with the path
    and message of that field; and the same error is thrown whatever fields
    follow it, so that no later field contributes to the result. *)
Theorem C8_validation_stops_at_first_failure `{ZodLib} (zodSchema : ZodRawShape)
    (args : value) (e : JsError) :
  validateWithZod zodSchema args = Throw e ->
  exists before key schema after validated error,
    zodSchema = (before ++ (key, schema) :: after)%list
    /\ validate_entries before args [] = Return validated
    /\ validate_field key schema args validated = Throw error
    /\ err_name e = "ZodError"
    /\ err_errors e = Some [mkIssue "custom" [key] (err_message error)]
    /\ forall after',
         validateWithZod (before ++ (key, schema) :: after')%list args = Throw e.
Proof.
  unfold validateWithZod.
  destruct (validate_entries zodSchema args []) as [out|e'] eqn:Hrun;
    cbn [bind]; [discriminate|].
  intros [= ->].
  apply validate_entries_throw in Hrun
    as (before & key & schema & after & validated & error & -> & Hb & Hf & ->).
  exists before, key, schema, after, validated, error.
  repeat split; try assumption.
  intros after'.
  now rewrite (validate_entries_stop before key schema after' args [] validated error).
Qed.

(** C8 as amended, at the shape [{a: z.string(), b: z.string()}] and the
    arguments [{a: 1, b: 2}], run with the reference parser. *)
Lemma C8_validation_stops_at_first_failure_witness :
  exists before key schema after validated error,
    [("a", ZodString [] None); ("b", ZodString [] None)]
    = (before ++ (key, schema) :: after)%list
    /\ @validate_entries ZodModel.lib before (VObj [("a", VNum 1); ("b", VNum 2)]) []
       = Return validated
    /\ @validate_field ZodModel.lib key schema
         (VObj [("a", VNum 1); ("b", VNum 2)]) validated = Throw error
    /\ err_name
         (@field_failure ZodModel.lib "a"
            (ZodModel.invalid_type "string" (VNum 1))) = "ZodError"
    /\ err_errors
         (@field_failure ZodModel.lib "a"
            (ZodModel.invalid_type "string" (VNum 1)))
       = Some [mkIssue "custom" [key] (err_message error)]
    /\ forall after',
         @validateWithZod ZodModel.lib (before ++ (key, schema) :: after')%list
           (VObj [("a", VNum 1); ("b", VNum 2)])
         = Throw (@field_failure ZodModel.lib "a"
                    (ZodModel.invalid_type "string" (VNum 1))).
Proof.
  exact (@C8_validation_stops_at_first_failure ZodModel.lib
           [("a", ZodString [] None); ("b", ZodString [] None)]
           (VObj [("a", VNum 1); ("b", VNum 2)])
           (@field_failure ZodModel.lib "a"
              (ZodModel.invalid_type "string" (VNum 1)))
           eq_refl).
Defined.

(** C8 as stated fails.  With the shape [{a: z.string(), b: z.string()}]
    and the arguments [{a: 1, b: 2}] both fields fail, yet the thrown
    error reports the single path [a]: the failure of [b] is not
    aggregated.  (Run with the reference parser.) *)
Lemma C8_aggregation_counterexample :
  @failing_fields ZodModel.lib
    [("a", ZodString [] None); ("b", ZodString [] None)]
    (VObj [("a", VNum 1); ("b", VNum 2)]) = ["a"; "b"]
  /\ exists e,
       @validateWithZod ZodModel.lib
         [("a", ZodString [] None); ("b", ZodString [] None)]
         (VObj [("a", VNum 1); ("b", VNum 2)]) = Throw e
       /\ reported_paths e = [["a"]]
       /\ reported_paths e
          <> map (fun k => [k])
               (@failing_fields ZodModel.lib
                  [("a", ZodString [] None); ("b", ZodString [] None)]
                  (VObj [("a", VNum 1); ("b", VNum 2)])).
Proof.
  split; [reflexivity|].
  eexists. split; [reflexivity|]. split; [reflexivity|].
  cbv. discriminate.
Qed.

(** ** The dispatcher and the transport boundary *)

Lemma opt_chain_get o k : opt_chain o k = get_prop o k.
Proof. now destruct o. Qed.

Lemma get_prop_strict_defined o k v :
  get_prop o k = v -> v <> VUndefined -> get_prop_strict o k = Return v.
Proof.
  intros <- Hd. unfold get_prop_strict.
  destruct o; cbn [is_nullish]; try reflexivity; now elim Hd.
Qed.

Lemma handleRequest_dispatch this request method :
  get_prop request "method" = VStr method ->
  handleRequest this request
  = dispatch this (VStr method) (get_prop request "params").
Proof.
  intros Hm. unfold handleRequest.
  rewrite (get_prop_strict_defined request "method" (VStr method)) by congruence.
  reflexivity.
Qed.

Section TransportFacts.
Context `{JsonLib}.

(** A dispatch exception becomes an error envelope with status 500. *)
Lemma transport_of_throw this body headers corsHeaders request error :
  accepted_envelope body headers request ->
  handleRequest this request = Throw error ->
  handleMCPRequest this body headers corsHeaders
  = Return (createErrorResponse 500 (errorCode_of (err_message error))
              (err_message error) corsHeaders (get_prop request "id")).
Proof.
  intros (Hct & Hparse & Htag & Hmethod) Hthrow. unfold handleMCPRequest.
  rewrite Hct, Hparse. cbn [negb].
  rewrite (get_prop_strict_defined request "jsonrpc" (VStr "2.0"))
    by congruence.
  cbn [bind truthy strict_eq_str String.eqb Ascii.eqb Bool.eqb negb orb].
  rewrite Hmethod. cbn [negb].
  now rewrite Hthrow.
Qed.

(** A dispatch result other than [null] becomes a result envelope with
    status 200. *)
Lemma transport_of_return this body headers corsHeaders request result :
  accepted_envelope body headers request ->
  handleRequest this request = Return result ->
  result <> VNull ->
  handleMCPRequest this body headers corsHeaders
  = Return (createResponse
              (VObj [("jsonrpc", VStr "2.0"); ("result", result);
                     ("id", get_prop request "id")])
              200 corsHeaders).
Proof.
  intros (Hct & Hparse & Htag & Hmethod) Hret Hnn. unfold handleMCPRequest.
  rewrite Hct, Hparse. cbn [negb].
  rewrite (get_prop_strict_defined request "jsonrpc" (VStr "2.0"))
    by congruence.
  cbn [bind truthy strict_eq_str String.eqb Ascii.eqb Bool.eqb negb orb].
  rewrite Hmethod. cbn [negb].
  rewrite Hret. destruct result; try reflexivity. now elim Hnn.
Qed.

End TransportFacts.

(** C1 (P6, operation handler fault isolation).  For a [tools/call]
    request that names a registered tool (the name is a non-empty string,
    so it counts as supplied), if the tool's stored handler throws on the
    arguments of the request, [handleRequest] returns the result
    [{content: [{type: 'text', text: 'Error: ' + message}], isError: true}];
    it does not throw, and a transport that accepted the envelope answers
    with status 200 and this result, not with an error envelope. *)
Theorem C1_tool_exception_becomes_result (this : MCPServer) (request : value)
    (name : string) (entry : ToolEntry) (error : JsError) :
  get_prop request "method" = VStr "tools/call" ->
  get_prop (get_prop request "params") "name" = VStr name ->
  name <> "" ->
  assoc_get name (tools this) = Some entry ->
  tool_handler entry
    (js_or (get_prop (get_prop request "params") "arguments") (VObj []))
  = Throw error ->
  handleRequest this request
  = Return
      (VObj [("content",
              VArr [VObj [("type", VStr "text");
                          ("text", VStr ("Error: " ++ err_message error))]]);
             ("isError", VBool true)])
  /\ forall (J : JsonLib) body headers corsHeaders,
       accepted_envelope body headers request ->
       handleMCPRequest this body headers corsHeaders
       = Return
           (createResponse
              (VObj [("jsonrpc", VStr "2.0");
                     ("result", tool_error_result error);
                     ("id", get_prop request "id")])
              200 corsHeaders).
Proof.
  intros Hmethod Hname Hne Hentry Hthrow.
  assert (Hrun : handleRequest this request = Return (tool_error_result error)).
  { rewrite (handleRequest_dispatch this request "tools/call" Hmethod).
    cbn [dispatch strict_eq_str String.eqb Ascii.eqb Bool.eqb].
    unfold handleToolsCall. rewrite opt_chain_get, Hname.
    cbn [truthy Map_get]. apply String.eqb_neq in Hne. rewrite Hne. cbn [negb].
    now rewrite Hentry, Hthrow. }
  split; [exact Hrun|].
  intros J body headers corsHeaders Hacc.
  now apply transport_of_return.
Qed.

(** The validating wrapper of a tool turns a validation failure into a
    thrown [Error] whose message starts with [Validation error:], without
    calling the user's function. *)
Lemma validatedHandler_validation_failure `{ZodLib} inputSchema handler args e :
  validateWithZod inputSchema args = Throw e ->
  exists key message,
    validatedHandler inputSchema handler args
    = Throw (new_Error ("Validation error: " ++ key ++ ": " ++ message)).
Proof.
  intros Hv. unfold validatedHandler. rewrite Hv. cbn [bind try_catch].
  unfold validateWithZod in Hv.
  destruct (validate_entries inputSchema args []) as [out|e'] eqn:Hrun;
    cbn [bind] in Hv; [discriminate|].
  injection Hv as ->.
  apply validate_entries_throw in Hrun
    as (before & key & schema & after & validated & error & _ & _ & _ & ->).
  exists key, (err_message error). reflexivity.
Qed.

(** The wrapper passes on an exception of the user's function that is not
    a [ZodError]. *)
Lemma validatedHandler_user_throw `{ZodLib} inputSchema handler args validated e :
  validateWithZod inputSchema args = Return validated ->
  handler_call handler validated = Throw e ->
  err_name e <> "ZodError" ->
  validatedHandler inputSchema handler args = Throw e.
Proof.
  intros Hv Hcall Hname. unfold validatedHandler.
  rewrite Hv. cbn [bind]. rewrite Hcall. cbn [try_catch].
  apply String.eqb_neq in Hname. now rewrite Hname.
Qed.

(** After [tool(name, inputSchema, handler)] the entry stored under [name]
    holds the validating wrapper, whatever was registered under that name
    before (the last registration wins). *)
Lemma tool_stores_wrapper `{ZodLib} this name inputSchema handler :
  exists entry,
    assoc_get name (tools (tool this name inputSchema handler)) = Some entry
    /\ tool_handler entry = validatedHandler inputSchema handler
    /\ tool_inputSchema entry = zodToJsonSchema inputSchema.
Proof.
  eexists. split; [apply assoc_get_set_eq|]. split; reflexivity.
Qed.

(** C1, on the example server: [divide] with a zero divisor. *)
Lemma C1_tool_exception_becomes_result_witness :
  handleRequest Example.server Example.divide_by_zero
  = Return
      (VObj [("content",
              VArr [VObj [("type", VStr "text");
                          ("text", VStr "Error: Division by zero")]]);
             ("isError", VBool true)])
  /\ forall (J : JsonLib) body headers corsHeaders,
       accepted_envelope body headers Example.divide_by_zero ->
       handleMCPRequest Example.server body headers corsHeaders
       = Return
           (createResponse
              (VObj [("jsonrpc", VStr "2.0");
                     ("result",
                      tool_error_result (new_Error "Division by zero"));
                     ("id", VNum 1)])
              200 corsHeaders).
Proof.
  exact (C1_tool_exception_becomes_result Example.server Example.divide_by_zero
           "divide"
           (mkTool "divide" "Divide two numbers"
              (zodToJsonSchema Example.divide_schema)
              (@validatedHandler ZodModel.lib Example.divide_schema
                 Example.divide_handler))
           (new_Error "Division by zero")
           eq_refl eq_refl ltac:(discriminate) eq_refl eq_refl).
Defined.

Lemma throws_protocol_error_intro this request message :
  handleRequest this request = Throw (new_Error message) ->
  throws_protocol_error this request message.
Proof.
  intros Hthrow. split; [exact Hthrow|].
  intros J body headers corsHeaders Hacc.
  exact (transport_of_throw this body headers corsHeaders request
           (new_Error message) Hacc Hthrow).
Qed.

Lemma find_resource_none this uri :
  (forall r, In r (Map_values (resources this)) -> uri <> VStr (resource_uri r)) ->
  find_resource this uri = None.
Proof.
  unfold find_resource. intros Hno.
  induction (Map_values (resources this)) as [|r rs IH]; [reflexivity|].
  cbn [find].
  destruct (strict_eq_str uri (resource_uri r)) eqn:E.
  - exfalso. apply (Hno r); [now left|].
    destruct uri; try discriminate. cbn in E. apply String.eqb_eq in E.
    now subst.
  - apply IH. intros r' Hin. apply Hno. now right.
Qed.

(** The [catch] of [handleResourcesRead] re-throws the handler's exception
    under a new message. *)
Lemma resources_read_rethrows this request entry error :
  get_prop request "method" = VStr "resources/read" ->
  truthy (get_prop (get_prop request "params") "uri") = true ->
  find_resource this (get_prop (get_prop request "params") "uri") = Some entry ->
  resource_handler entry (get_prop (get_prop request "params") "uri")
  = Throw error ->
  handleRequest this request
  = Throw (new_Error ("Resource read error: " ++ err_message error)).
Proof.
  intros Hmethod Htruthy Hfind Hthrow.
  rewrite (handleRequest_dispatch this request "resources/read" Hmethod).
  cbn [dispatch strict_eq_str String.eqb Ascii.eqb Bool.eqb].
  unfold handleResourcesRead. rewrite opt_chain_get, Htruthy. cbn [negb].
  now rewrite Hfind, Hthrow.
Qed.

(** C2.  For a [resources/read] request with requested uri [uri]:
    a missing (falsy) uri, a uri that no registered resource has, and a
    handler of the matching resource that throws each make [handleRequest]
    throw, and the transport reports the exception as an error envelope;
    the handler's exception is re-thrown as
    [Resource read error: <message>]. *)
Theorem C2_resource_read_failures_are_thrown (this : MCPServer) (request : value) :
  get_prop request "method" = VStr "resources/read" ->
  (truthy (get_prop (get_prop request "params") "uri") = false ->
   throws_protocol_error this request "Resource URI is required")
  /\ (truthy (get_prop (get_prop request "params") "uri") = true ->
      (forall r, In r (Map_values (resources this)) ->
                 get_prop (get_prop request "params") "uri"
                 <> VStr (resource_uri r)) ->
      throws_protocol_error this request
        ("Resource not found: "
         ++ ToString (get_prop (get_prop request "params") "uri")))
  /\ (forall entry error,
        truthy (get_prop (get_prop request "params") "uri") = true ->
        find_resource this (get_prop (get_prop request "params") "uri")
        = Some entry ->
        resource_handler entry (get_prop (get_prop request "params") "uri")
        = Throw error ->
        throws_protocol_error this request
          ("Resource read error: " ++ err_message error)).
Proof.
  intros Hmethod.
  assert (Hrun : handleRequest this request
                 = handleResourcesRead this (get_prop request "params")).
  { now rewrite (handleRequest_dispatch this request "resources/read" Hmethod). }
  split; [|split].
  - intros Hfalsy. apply throws_protocol_error_intro. rewrite Hrun.
    unfold handleResourcesRead. now rewrite opt_chain_get, Hfalsy.
  - intros Htruthy Hno. apply throws_protocol_error_intro. rewrite Hrun.
    unfold handleResourcesRead. rewrite opt_chain_get, Htruthy. cbn [negb].
    now rewrite (find_resource_none this _ Hno).
  - intros entry error Htruthy Hfind Hthrow.
    apply throws_protocol_error_intro.
    now apply (resources_read_rethrows this request entry error).
Qed.

(** C2, on the example server: a read without uri, a read of an unknown
    uri, and a read whose handler throws. *)
Lemma C2_resource_read_failures_are_thrown_witness :
  throws_protocol_error Example.server Example.read_without_uri
    "Resource URI is required"
  /\ throws_protocol_error Example.server Example.read_unknown
       "Resource not found: file://nowhere"
  /\ throws_protocol_error Example.server Example.read_missing
       "Resource read error: File not found on disk".
Proof.
  split; [|split].
  - exact (proj1 (C2_resource_read_failures_are_thrown Example.server
                    Example.read_without_uri eq_refl) eq_refl).
  - apply (proj1 (proj2 (C2_resource_read_failures_are_thrown Example.server
                           Example.read_unknown eq_refl)) eq_refl).
    intros r [<-|[<-|[]]]; discriminate.
  - exact (proj2 (proj2 (C2_resource_read_failures_are_thrown Example.server
                           Example.read_missing eq_refl))
             (mkResource "missing" "file://missing" "Resource: missing"
                (handler_call Example.missing_file_handler))
             (new_Error "File not found on disk") eq_refl eq_refl eq_refl).
Defined.

(** C3, as amended.  Every [initialize] request is answered, never
    rejected, and the [protocolVersion] of the answer is the configured
    server version, whatever version the client requested. *)
Theorem C3_initialize_returns_configured_version (this : MCPServer)
    (request : value) :
  get_prop request "method" = VStr "initialize" ->
  exists result,
    handleRequest this request = Return result
    /\ get_prop result "protocolVersion"
       = VStr (config_protocolVersion (config this)).
Proof.
  intros Hmethod.
  rewrite (handleRequest_dispatch this request "initialize" Hmethod).
  eexists. split; reflexivity.
Qed.

(** C3 as amended, on the example server and a client that asks for
    2024-11-05. *)
Lemma C3_initialize_returns_configured_version_witness :
  exists result,
    handleRequest Example.server Example.initialize_2024 = Return result
    /\ get_prop result "protocolVersion" = VStr "2025-03-26".
Proof.
  exact (C3_initialize_returns_configured_version Example.server
           Example.initialize_2024 eq_refl).
Defined.

(** C3 as stated fails.  The client requests 2024-11-05, which is on the
    allow-list, so the negotiated version of the specification is 2024-11-05; the
    server, configured by default with 2025-03-26, answers 2025-03-26. *)
Lemma C3_negotiation_counterexample :
  spec_negotiatedVersion
    (get_prop (get_prop Example.initialize_2024 "params") "protocolVersion")
    (config_protocolVersion (config Example.server))
  = VStr "2024-11-05"
  /\ exists result,
       handleRequest Example.server Example.initialize_2024 = Return result
       /\ get_prop result "protocolVersion" = VStr "2025-03-26"
       /\ get_prop result "protocolVersion"
          <> spec_negotiatedVersion
               (get_prop (get_prop Example.initialize_2024 "params")
                         "protocolVersion")
               (config_protocolVersion (config Example.server)).
Proof.
  split; [reflexivity|].
  eexists. split; [reflexivity|]. split; [reflexivity|].
  cbv. discriminate.
Qed.

(** C4, as amended.  Every [initialize] request is answered with a
    [capabilities] object that advertises all three flags, [tools],
    [resources] and [prompts], each as [{listChanged: true}], whatever the
    registries contain. *)
Theorem C4_initialize_advertises_all_capabilities (this : MCPServer)
    (request : value) :
  get_prop request "method" = VStr "initialize" ->
  exists result,
    handleRequest this request = Return result
    /\ get_prop result "capabilities"
       = VObj [("tools", VObj [("listChanged", VBool true)]);
               ("resources", VObj [("listChanged", VBool true)]);
               ("prompts", VObj [("listChanged", VBool true)])]
    /\ advertised result "tools"
    /\ advertised result "resources"
    /\ advertised result "prompts".
Proof.
  intros Hmethod.
  rewrite (handleRequest_dispatch this request "initialize" Hmethod).
  eexists. split; [reflexivity|]. split; [reflexivity|].
  repeat split; cbv; discriminate.
Qed.

(** C4 as amended, on a server with no registration at all. *)
Lemma C4_initialize_advertises_all_capabilities_witness :
  exists result,
    handleRequest Example.empty_server Example.initialize_2024 = Return result
    /\ get_prop result "capabilities"
       = VObj [("tools", VObj [("listChanged", VBool true)]);
               ("resources", VObj [("listChanged", VBool true)]);
               ("prompts", VObj [("listChanged", VBool true)])]
    /\ advertised result "tools"
    /\ advertised result "resources"
    /\ advertised result "prompts".
Proof.
  exact (C4_initialize_advertises_all_capabilities Example.empty_server
           Example.initialize_2024 eq_refl).
Defined.

(** C4 as stated fails.  A server with three empty registries still
    advertises the [tools] flag (and the other two), so a flag is not
    advertised only when its registry is non-empty. *)
Lemma C4_empty_registry_counterexample :
  tools Example.empty_server = []
  /\ resources Example.empty_server = []
  /\ prompts Example.empty_server = []
  /\ exists result,
       handleRequest Example.empty_server Example.initialize_2024 = Return result
       /\ advertised result "tools"
       /\ ~ (advertised result "tools" <-> tools Example.empty_server <> []).
Proof.
  repeat (split; [reflexivity|]).
  eexists. split; [reflexivity|].
  assert (Hadv : advertised
                   (VObj [("protocolVersion", VStr "2025-03-26");
                          ("capabilities",
                           VObj [("tools", VObj [("listChanged", VBool true)]);
                                 ("resources", VObj [("listChanged", VBool true)]);
                                 ("prompts", VObj [("listChanged", VBool true)])]);
                          ("serverInfo",
                           VObj [("name", VStr "Test Server");
                                 ("version", VStr "1.0.0")]);
                          ("instructions", VStr "Test MCP Server")])
                   "tools")
    by (cbv; discriminate).
  split; [exact Hadv|].
  intros [Hif _]. now apply (Hif Hadv).
Qed.

Lemma strict_eq_str_VStr (m s : string) :
  strict_eq_str (VStr m) s = (s =? m)%string.
Proof. apply String.eqb_sym. Qed.

Lemma errorCode_of_method_not_found (rest : string) :
  errorCode_of ("Method not found" ++ rest) = -32601.
Proof. unfold errorCode_of. now rewrite includes_prefix. Qed.

(** The [switch] agrees with the table on every method string. *)
Lemma dispatch_by_table this method params :
  dispatch this (VStr method) params
  = match assoc_get method dispatch_table with
    | Some handler => handler this params
    | None => Throw (new_Error ("Method not found: " ++ method))
    end.
Proof.
  unfold dispatch. rewrite !strict_eq_str_VStr.
  unfold dispatch_table. cbn [assoc_get].
  repeat match goal with
         | |- context [(?lit =? method)%string] =>
             destruct (lit =? method)%string; [reflexivity|]
         end.
  reflexivity.
Qed.

(** C9, as amended (P5, dispatch completeness).  For a request whose
    method is the string [method]: when [method] is one of the eight
    recognized methods, [handleRequest] is the handler that the dispatch
    table gives for it; otherwise [handleRequest] throws
    [Method not found: <method>], and a transport that accepted the
    envelope (which requires a non-empty method) answers with an error
    envelope of code -32601 and status 500. *)
Theorem C9_dispatch_by_method (this : MCPServer) (request : value)
    (method : string) :
  get_prop request "method" = VStr method ->
  (forall handler,
     assoc_get method dispatch_table = Some handler ->
     handleRequest this request = handler this (get_prop request "params"))
  /\ (~ In method recognized_methods ->
      handleRequest this request
      = Throw (new_Error ("Method not found: " ++ method))
      /\ forall (J : JsonLib) body headers corsHeaders,
           accepted_envelope body headers request ->
           handleMCPRequest this body headers corsHeaders
           = Return (createErrorResponse 500 (-32601)
                       ("Method not found: " ++ method) corsHeaders
                       (get_prop request "id"))).
Proof.
  intros Hmethod.
  rewrite (handleRequest_dispatch this request method Hmethod).
  rewrite dispatch_by_table. split.
  - intros handler Hh. now rewrite Hh.
  - intros Hunknown.
    assert (Hthrow : handleRequest this request
                     = Throw (new_Error ("Method not found: " ++ method))).
    { rewrite (handleRequest_dispatch this request method Hmethod).
      rewrite dispatch_by_table.
      now rewrite (assoc_get_absent dispatch_table method Hunknown). }
    rewrite (assoc_get_absent dispatch_table method Hunknown).
    split; [reflexivity|].
    intros J body headers corsHeaders Hacc.
    rewrite (transport_of_throw this body headers corsHeaders request _
               Hacc Hthrow).
    cbn [err_message new_Error].
    change ("Method not found: " ++ method)
      with ("Method not found" ++ (": " ++ method)) at 1.
    now rewrite errorCode_of_method_not_found.
Qed.

Lemma example_envelope (message : value) :
  JsonModel.parse_in Example.messages (JsonModel.stringify message) = Some message ->
  get_prop message "jsonrpc" = VStr "2.0" ->
  truthy (get_prop message "method") = true ->
  @accepted_envelope Example.json (Example.wire message) Example.json_headers
    message.
Proof.
  intros Hparse Htag Hmethod. unfold accepted_envelope.
  split; [reflexivity|]. split; [|split; assumption].
  cbn [Example.wire str_or].
  destruct (JsonModel.stringify message =? "")%string eqn:E.
  - apply String.eqb_eq in E. rewrite E in Hparse. discriminate Hparse.
  - exact Hparse.
Qed.

(** C9 as amended, on the example server: an unknown method, through the
    dispatcher and through the transport, and a recognized one. *)
Lemma C9_dispatch_by_method_witness :
  handleRequest Example.server Example.unknown_method
  = Throw (new_Error "Method not found: tools/remove")
  /\ @handleMCPRequest Example.json Example.server
       (Example.wire Example.unknown_method) Example.json_headers CORS_HEADERS
     = Return (@createErrorResponse Example.json 500 (-32601)
                 "Method not found: tools/remove" CORS_HEADERS (VNum 6))
  /\ handleRequest Example.server Example.read_missing
     = handleResourcesRead Example.server
         (VObj [("uri", VStr "file://missing")]).
Proof.
  destruct (C9_dispatch_by_method Example.server Example.unknown_method
              "tools/remove" eq_refl) as [_ Hunknown].
  destruct Hunknown as [Hthrow Htransport].
  { cbv. intuition discriminate. }
  split; [exact Hthrow|]. split.
  - apply (Htransport Example.json).
    apply example_envelope; reflexivity.
  - exact (proj1 (C9_dispatch_by_method Example.server Example.read_missing
                    "resources/read" eq_refl)
             handleResourcesRead eq_refl).
Defined.

(** C9 as stated fails.  The empty string is a method string that is none
    of the eight recognized methods; a request that carries it in an
    otherwise well-formed envelope is answered by the transport with status
    400 and code -32600 (missing method field), not with code -32601: the
    transport treats an empty method as absent and never dispatches it. *)
Lemma C9_empty_method_counterexample :
  get_prop Example.empty_method "method" = VStr ""
  /\ ~ In "" recognized_methods
  /\ @handleMCPRequest Example.json Example.server
       (Example.wire Example.empty_method) Example.json_headers CORS_HEADERS
     = Return (@createErrorResponse Example.json 400 (-32600)
                 "Invalid Request: missing method field" CORS_HEADERS (VNum 7))
  /\ @createErrorResponse Example.json 400 (-32600)
       "Invalid Request: missing method field" CORS_HEADERS (VNum 7)
     <> @createErrorResponse Example.json 500 (-32601)
          "Method not found: " CORS_HEADERS (VNum 7).
Proof.
  split; [reflexivity|]. split; [cbv; intuition discriminate|].
  split; [vm_compute; reflexivity|].
  intros Heq. apply (f_equal statusCode) in Heq. discriminate Heq.
Qed.

Lemma errorCode_of_invalid_params (prefix message : string) :
  includes (prefix ++ message) "Method not found" = false ->
  includes message "not found" || includes message "required" = true ->
  errorCode_of (prefix ++ message) = -32602.
Proof.
  intros Hno Hyes. unfold errorCode_of. rewrite Hno.
  apply orb_true_iff in Hyes as [Hy|Hy];
    rewrite (includes_app_r prefix message _ Hy);
    [reflexivity | now rewrite orb_true_r].
Qed.

(** C10.  A dispatch exception is answered with status 500 and an error
    code chosen from the exception's message alone: -32601 when it contains
    [Method not found], else -32602 when it contains [not found] or
    [required], else -32603.  Hence a [resources/read] or [prompts/get]
    request whose handler throws a message that contains [required] or
    [not found] (and not [Method not found]) is answered with the
    caller-error code -32602, not with -32603; the example server has such
    a request. *)
Theorem C10_error_code_from_message_text :
  (forall (J : JsonLib) this body headers corsHeaders request error,
     accepted_envelope body headers request ->
     handleRequest this request = Throw error ->
     exists response,
       handleMCPRequest this body headers corsHeaders = Return response
       /\ statusCode response = 500
       /\ response
          = createErrorResponse 500
              (if includes (err_message error) "Method not found" then -32601
               else if includes (err_message error) "not found"
                       || includes (err_message error) "required"
                    then -32602
                    else -32603)
              (err_message error) corsHeaders (get_prop request "id"))
  /\ (forall (J : JsonLib) this body headers corsHeaders request entry error,
        accepted_envelope body headers request ->
        get_prop request "method" = VStr "resources/read" ->
        truthy (get_prop (get_prop request "params") "uri") = true ->
        find_resource this (get_prop (get_prop request "params") "uri")
        = Some entry ->
        resource_handler entry (get_prop (get_prop request "params") "uri")
        = Throw error ->
        includes (err_message error) "not found"
        || includes (err_message error) "required" = true ->
        includes (err_message error) "Method not found" = false ->
        handleMCPRequest this body headers corsHeaders
        = Return (createErrorResponse 500 (-32602)
                    ("Resource read error: " ++ err_message error)
                    corsHeaders (get_prop request "id")))
  /\ (forall (J : JsonLib) this body headers corsHeaders request name entry error,
        accepted_envelope body headers request ->
        get_prop request "method" = VStr "prompts/get" ->
        get_prop (get_prop request "params") "name" = VStr name ->
        name <> "" ->
        assoc_get name (prompts this) = Some entry ->
        prompt_handler entry
          (js_or (get_prop (get_prop request "params") "arguments") (VObj []))
        = Throw error ->
        includes (err_message error) "not found"
        || includes (err_message error) "required" = true ->
        includes (err_message error) "Method not found" = false ->
        handleMCPRequest this body headers corsHeaders
        = Return (createErrorResponse 500 (-32602)
                    ("Prompt execution error: " ++ err_message error)
                    corsHeaders (get_prop request "id")))
  /\ (exists entry error,
        find_resource Example.server
          (get_prop (get_prop Example.read_missing "params") "uri") = Some entry
        /\ resource_handler entry
             (get_prop (get_prop Example.read_missing "params") "uri")
           = Throw error
        /\ includes (err_message error) "not found" = true
        /\ @handleMCPRequest Example.json Example.server
             (Example.wire Example.read_missing) Example.json_headers
             CORS_HEADERS
           = Return (@createErrorResponse Example.json 500 (-32602)
                       "Resource read error: File not found on disk"
                       CORS_HEADERS (VNum 2))).
Proof.
  split; [|split; [|split]].
  - intros J this body headers corsHeaders request error Hacc Hthrow.
    exists (createErrorResponse 500 (errorCode_of (err_message error))
              (err_message error) corsHeaders (get_prop request "id")).
    split; [|split; reflexivity].
    exact (transport_of_throw this body headers corsHeaders request error
             Hacc Hthrow).
  - intros J this body headers corsHeaders request entry error
      Hacc Hmethod Htruthy Hfind Hthrow Hyes Hno.
    rewrite (transport_of_throw this body headers corsHeaders request _ Hacc
               (resources_read_rethrows this request entry error
                  Hmethod Htruthy Hfind Hthrow)).
    cbn [err_message new_Error].
    now rewrite (errorCode_of_invalid_params "Resource read error: "
                   (err_message error) Hno Hyes).
  - intros J this body headers corsHeaders request name entry error
      Hacc Hmethod Hname Hne Hentry Hthrow Hyes Hno.
    assert (Hrun : handleRequest this request
                   = Throw (new_Error ("Prompt execution error: "
                                       ++ err_message error))).
    { rewrite (handleRequest_dispatch this request "prompts/get" Hmethod).
      cbn [dispatch strict_eq_str String.eqb Ascii.eqb Bool.eqb].
      unfold handlePromptsGet. rewrite opt_chain_get, Hname.
      cbn [truthy Map_get]. apply String.eqb_neq in Hne. rewrite Hne.
      cbn [negb]. now rewrite Hentry, Hthrow. }
    rewrite (transport_of_throw this body headers corsHeaders request _
               Hacc Hrun).
    cbn [err_message new_Error].
    now rewrite (errorCode_of_invalid_params "Prompt execution error: "
                   (err_message error) Hno Hyes).
  - eexists. eexists.
    split; [reflexivity|]. split; [reflexivity|]. split; [reflexivity|].
    vm_compute. reflexivity.
Qed.

(* ===================================================================== *)
(** * Further properties *)
(* ===================================================================== *)

(** ** The shape translator on whole shapes *)

Lemma schema_entries_required convert entries properties required :
  snd (schema_entries convert entries properties required)
  = (required ++ map VStr (required_keys entries))%list.
Proof.
  revert properties required.
  induction entries as [|[key schema] rest IH]; intros properties required.
  - cbn. now rewrite app_nil_r.
  - cbn [schema_entries]. rewrite IH. unfold required_keys.
    cbn [filter snd]. destruct (isZodOptional schema); cbn [negb map fst].
    + reflexivity.
    + now rewrite <- app_assoc.
Qed.

Lemma schema_entries_keys convert entries properties required :
  NoDup (map fst properties ++ map fst entries) ->
  map fst (fst (schema_entries convert entries properties required))
  = (map fst properties ++ map fst entries)%list.
Proof.
  revert properties required.
  induction entries as [|[key schema] rest IH]; intros properties required Hnd.
  - cbn. now rewrite app_nil_r.
  - cbn [schema_entries map fst] in *.
    assert (Hfresh : ~ In key (map fst properties)).
    { intros Hin. apply NoDup_remove_2 in Hnd. apply Hnd.
      apply in_or_app. now left. }
    rewrite IH; rewrite (assoc_set_fresh properties key _ Hfresh),
                        <- app_assoc; [reflexivity | exact Hnd].
Qed.

Lemma schema_entries_kept convert entries properties required k :
  ~ In k (map fst entries) ->
  assoc_get k (fst (schema_entries convert entries properties required))
  = assoc_get k properties.
Proof.
  revert properties required.
  induction entries as [|[key schema] rest IH]; intros properties required Hk.
  - reflexivity.
  - cbn [schema_entries]. cbn [map fst In] in Hk.
    rewrite IH by tauto. apply assoc_get_set_ne. tauto.
Qed.

Lemma schema_entries_get convert entries properties required key schema :
  NoDup (map fst entries) ->
  In (key, schema) entries ->
  assoc_get key (fst (schema_entries convert entries properties required))
  = Some (convert schema).
Proof.
  revert properties required.
  induction entries as [|[k s] rest IH]; intros properties required Hnd Hin.
  - destruct Hin.
  - cbn [map fst] in Hnd. apply NoDup_cons_iff in Hnd as [Hk Hnd].
    cbn [schema_entries]. destruct Hin as [[= -> ->]|Hin].
    + rewrite schema_entries_kept by exact Hk. apply assoc_get_set_eq.
    + now apply IH.
Qed.

(** X1.  For a shape without repeated keys, [zodToJsonSchema] returns an
    object schema whose [properties] has exactly the declared keys, in
    declaration order, each holding the translation of its field, and whose
    [required] array lists the fields without optional or default wrapper,
    in declaration order. *)
Theorem zodToJsonSchema_of_shape (zodSchema : ZodRawShape) :
  NoDup (map fst zodSchema) ->
  get_prop (zodToJsonSchema zodSchema) "type" = VStr "object"
  /\ own_keys (get_prop (zodToJsonSchema zodSchema) "properties")
     = map fst zodSchema
  /\ (forall key schema,
        In (key, schema) zodSchema ->
        get_prop (get_prop (zodToJsonSchema zodSchema) "properties") key
        = convertZodTypeToJsonSchema schema)
  /\ get_prop (zodToJsonSchema zodSchema) "required"
     = VArr (map VStr (required_keys zodSchema)).
Proof.
  intros Hnd. unfold zodToJsonSchema, object_schema.
  cbn [get_prop assoc_get String.eqb Ascii.eqb Bool.eqb own_keys].
  split; [reflexivity|]. split; [|split].
  - now rewrite schema_entries_keys.
  - intros key schema Hin. now rewrite (schema_entries_get _ _ _ _ key schema).
  - now rewrite schema_entries_required.
Qed.

(** X1, at the shape of the test suite's [optional_test] tool. *)
Lemma zodToJsonSchema_of_shape_witness :
  get_prop
    (zodToJsonSchema
       [("required", ZodString [] None);
        ("optional", ZodOptional (ZodString [] None) None);
        ("withDefault",
         ZodDefault (ZodOptional (ZodNumber [] None) None) (VNum 42) None)])
    "required" = VArr [VStr "required"].
Proof.
  apply (zodToJsonSchema_of_shape
           [("required", ZodString [] None);
            ("optional", ZodOptional (ZodString [] None) None);
            ("withDefault",
             ZodDefault (ZodOptional (ZodNumber [] None) None) (VNum 42) None)]).
  repeat constructor; simpl; intuition discriminate.
Defined.

Lemma expected_json_type_listed field ty :
  expected_json_type field = Some ty -> In ty json_schema_types.
Proof.
  induction field; cbn [expected_json_type]; intros Hty; try discriminate;
    try (injection Hty as <-; cbn; tauto); auto.
  injection Hty as <-. destruct (existsb is_int_check checks); cbn; tauto.
Qed.

Lemma convert_type_unknown field :
  expected_json_type field = None ->
  get_prop (convertZodTypeToJsonSchema field) "type" = VStr "string".
Proof.
  induction field; cbn [expected_json_type convertZodTypeToJsonSchema];
    intros Hty; try discriminate; auto.
  rewrite get_obj_set_ne by discriminate. auto.
Qed.

(** X2.  Translation never fails and always produces a [type]: for every
    schema, of a known class or not and under any optional and default
    wrappers, the translated schema has as [type] one of the six
    JSON-Schema type names; a class that the translator does not know
    yields ["string"]. *)
Theorem convert_always_typed (zodType : ZodType) :
  exists ty,
    get_prop (convertZodTypeToJsonSchema zodType) "type" = VStr ty
    /\ In ty json_schema_types
    /\ (expected_json_type zodType = None -> ty = "string").
Proof.
  destruct (expected_json_type zodType) as [ty|] eqn:Hty.
  - exists ty. split; [now apply convert_type|].
    split; [now apply (expected_json_type_listed zodType)|discriminate].
  - exists "string". split; [now apply convert_type_unknown|].
    split; [cbn; tauto | reflexivity].
Qed.

Lemma string_checks_minLength checks schema :
  is_obj schema ->
  get_prop (fold_left string_check_step checks schema) "minLength"
  = match last_string_min checks with
    | Some v => VNum v
    | None => get_prop schema "minLength"
    end.
Proof.
  revert schema. induction checks as [|c checks IH]; intros schema Ho.
  - reflexivity.
  - cbn [fold_left last_string_min].
    rewrite IH by now apply string_check_step_is_obj.
    destruct (last_string_min checks); [reflexivity|].
    destruct c; cbn [string_check_step]; try reflexivity;
      try (apply get_obj_set_ne; discriminate).
    now apply get_obj_set_eq.
Qed.

Lemma string_checks_maxLength checks schema :
  is_obj schema ->
  get_prop (fold_left string_check_step checks schema) "maxLength"
  = match last_string_max checks with
    | Some v => VNum v
    | None => get_prop schema "maxLength"
    end.
Proof.
  revert schema. induction checks as [|c checks IH]; intros schema Ho.
  - reflexivity.
  - cbn [fold_left last_string_max].
    rewrite IH by now apply string_check_step_is_obj.
    destruct (last_string_max checks); [reflexivity|].
    destruct c; cbn [string_check_step]; try reflexivity;
      try (apply get_obj_set_ne; discriminate).
    now apply get_obj_set_eq.
Qed.

Lemma number_checks_minimum checks schema :
  is_obj schema ->
  get_prop (fold_left number_check_step checks schema) "minimum"
  = match last_number_min checks with
    | Some v => VNum v
    | None => get_prop schema "minimum"
    end.
Proof.
  revert schema. induction checks as [|c checks IH]; intros schema Ho.
  - reflexivity.
  - cbn [fold_left last_number_min].
    rewrite IH by now apply number_check_step_is_obj.
    destruct (last_number_min checks); [reflexivity|].
    destruct c; cbn [number_check_step]; try reflexivity;
      try (apply get_obj_set_ne; discriminate).
    now apply get_obj_set_eq.
Qed.

Lemma number_checks_maximum checks schema :
  is_obj schema ->
  get_prop (fold_left number_check_step checks schema) "maximum"
  = match last_number_max checks with
    | Some v => VNum v
    | None => get_prop schema "maximum"
    end.
Proof.
  revert schema. induction checks as [|c checks IH]; intros schema Ho.
  - reflexivity.
  - cbn [fold_left last_number_max].
    rewrite IH by now apply number_check_step_is_obj.
    destruct (last_number_max checks); [reflexivity|].
    destruct c; cbn [number_check_step]; try reflexivity;
      try (apply get_obj_set_ne; discriminate).
    now apply get_obj_set_eq.
Qed.

(** X3.  Bounds of a string field: the translated schema has [minLength]
    (resp. [maxLength]) exactly when the field has a [min] (resp. [max])
    check, with the value of the last such check. *)
Theorem string_bounds_translated (checks : list StringCheck)
    (d : option string) :
  get_prop (convertZodTypeToJsonSchema (ZodString checks d)) "minLength"
  = optional_number (last_string_min checks)
  /\ get_prop (convertZodTypeToJsonSchema (ZodString checks d)) "maxLength"
     = optional_number (last_string_max checks).
Proof.
  cbn [convertZodTypeToJsonSchema].
  rewrite !get_with_description by discriminate.
  rewrite string_checks_minLength, string_checks_maxLength by exact I.
  split; [destruct (last_string_min checks) | destruct (last_string_max checks)];
    reflexivity.
Qed.

(** X4.  Bounds of a number field: the translated schema has [minimum]
    (resp. [maximum]) exactly when the field has a [min] (resp. [max])
    check, with the value of the last such check; the [int] check changes
    the [type] only. *)
Theorem number_bounds_translated (checks : list NumberCheck)
    (d : option string) :
  get_prop (convertZodTypeToJsonSchema (ZodNumber checks d)) "minimum"
  = optional_number (last_number_min checks)
  /\ get_prop (convertZodTypeToJsonSchema (ZodNumber checks d)) "maximum"
     = optional_number (last_number_max checks)
  /\ get_prop (convertZodTypeToJsonSchema (ZodNumber checks d)) "type"
     = VStr (if existsb is_int_check checks then "integer" else "number").
Proof.
  cbn [convertZodTypeToJsonSchema].
  rewrite !get_with_description by discriminate.
  rewrite number_checks_minimum, number_checks_maximum, number_checks_type
    by exact I.
  split; [|split].
  - now destruct (last_number_min checks).
  - now destruct (last_number_max checks).
  - now destruct (existsb is_int_check checks).
Qed.

(** ** The argument validator, value by value *)

Lemma assoc_get_in {A : Type} (l : list (string * A)) k a :
  assoc_get k l = Some a -> In k (map fst l).
Proof.
  induction l as [|[k' a'] l IH]; cbn; [discriminate|].
  destruct (k' =? k)%string eqn:E.
  - apply String.eqb_eq in E. now left.
  - intros Hl. right. now apply IH.
Qed.

Lemma assoc_get_none_not_in {A : Type} (l : list (string * A)) k :
  assoc_get k l = None -> ~ In k (map fst l).
Proof.
  induction l as [|[k' a'] l IH]; cbn; [tauto|].
  destruct (k' =? k)%string eqn:E; [discriminate|].
  apply String.eqb_neq in E. intros Hl [Hk|Hin]; [congruence|].
  now apply IH.
Qed.

Section ValidatorValues.
Context `{ZodLib}.

(** What one processed field does to the output. *)
Lemma validate_field_cases key schema args validated out :
  validate_field key schema args validated = Return out ->
  if skipped_field args key schema then out = validated
  else exists v,
         zod_parse schema (get_prop args key) = Return v
         /\ out = assoc_set validated key v.
Proof.
  unfold validate_field, get_prop_strict, skipped_field.
  destruct (is_nullish args); [discriminate|]. cbn [bind].
  destruct (get_prop args key) eqn:Harg; cbn [is_undefined andb];
    try (destruct (zod_parse schema _) as [v|e]; cbn [bind]; [|discriminate];
         intros [= <-]; now exists v).
  destruct (isZodOptional schema); cbn [andb].
  - destruct (hasZodDefault schema); cbn [negb].
    + destruct (zod_parse schema VUndefined) as [v|e]; cbn [bind]; [|discriminate].
      intros [= <-]. now exists v.
    + now intros [= <-].
  - destruct (zod_parse schema VUndefined) as [v|e]; cbn [bind]; [|discriminate].
    intros [= <-]. now exists v.
Qed.

Lemma validate_entries_kept entries args validated out k :
  ~ In k (map fst entries) ->
  validate_entries entries args validated = Return out ->
  assoc_get k out = assoc_get k validated.
Proof.
  revert validated.
  induction entries as [|[key schema] rest IH]; intros validated Hk Hrun.
  - now injection Hrun as <-.
  - cbn [map fst In] in Hk.
    apply validate_entries_step in Hrun as (mid & Hfield & Hrest).
    rewrite (IH mid) by tauto.
    apply validate_field_return in Hfield as [->|[v ->]]; [reflexivity|].
    apply assoc_get_set_ne. tauto.
Qed.

Lemma validate_entries_lookup entries args validated out key schema :
  NoDup (map fst entries) ->
  In (key, schema) entries ->
  validate_entries entries args validated = Return out ->
  if skipped_field args key schema
  then assoc_get key out = assoc_get key validated
  else exists v,
         zod_parse schema (get_prop args key) = Return v
         /\ assoc_get key out = Some v.
Proof.
  revert validated.
  induction entries as [|[k s] rest IH]; intros validated Hnd Hin Hrun.
  - destruct Hin.
  - cbn [map fst] in Hnd. apply NoDup_cons_iff in Hnd as [Hk Hnd].
    apply validate_entries_step in Hrun as (mid & Hfield & Hrest).
    destruct Hin as [[= -> ->]|Hin].
    + rewrite (validate_entries_kept rest args mid out key Hk Hrest).
      apply validate_field_cases in Hfield.
      destruct (skipped_field args key schema).
      * now subst mid.
      * destruct Hfield as (v & Hparse & ->). exists v.
        split; [exact Hparse | apply assoc_get_set_eq].
    + assert (Hne : k <> key).
      { intros ->. apply Hk. now apply (in_map fst) in Hin. }
      specialize (IH mid Hnd Hin Hrest).
      destruct (skipped_field args key schema); [|exact IH].
      rewrite IH.
      apply validate_field_return in Hfield as [->|[v ->]]; [reflexivity|].
      now apply assoc_get_set_ne.
Qed.

(** Whether a field throws does not depend on the output built so far. *)
Lemma validate_field_status key schema args validated :
  field_fails args (key, schema) = true
  <-> exists e, validate_field key schema args validated = Throw e.
Proof.
  unfold field_fails, validate_field, get_prop_strict. cbn [fst snd].
  destruct (is_nullish args); cbn [bind].
  - split; [eauto | reflexivity].
  - destruct (is_undefined (get_prop args key) && isZodOptional schema).
    + destruct (hasZodDefault schema).
      * destruct (zod_parse schema VUndefined); cbn [bind];
          split; eauto; try discriminate; now intros [e He].
      * split; [discriminate | now intros [e He]].
    + destruct (zod_parse schema (get_prop args key)); cbn [bind];
        split; eauto; try discriminate; now intros [e He].
Qed.

Lemma validate_entries_return_iff entries args validated :
  (exists out, validate_entries entries args validated = Return out)
  <-> filter (field_fails args) entries = [].
Proof.
  revert validated.
  induction entries as [|[key schema] rest IH]; intros validated.
  - cbn. split; eauto.
  - cbn [validate_entries filter].
    destruct (field_fails args (key, schema)) eqn:Hf.
    + apply (validate_field_status key schema args validated) in Hf as [e He].
      rewrite He. cbn. split; [now intros [out Ho] | discriminate].
    + destruct (validate_field key schema args validated) as [mid|e] eqn:Hv.
      * cbn [try_catch bind]. apply IH.
      * exfalso.
        assert (Ht : field_fails args (key, schema) = true)
          by (apply (validate_field_status key schema args validated); eauto).
        congruence.
Qed.

Lemma validate_entries_first_failure entries args validated e :
  validate_entries entries args validated = Throw e ->
  exists key rest,
    map fst (filter (field_fails args) entries) = key :: rest
    /\ reported_paths e = [[key]].
Proof.
  revert validated.
  induction entries as [|[key schema] rest IH]; intros validated Hrun.
  - discriminate.
  - cbn [validate_entries filter] in *.
    destruct (validate_field key schema args validated) as [mid|e'] eqn:Hv;
      cbn [try_catch bind] in Hrun.
    + assert (Hf : field_fails args (key, schema) = false).
      { destruct (field_fails args (key, schema)) eqn:Hf; [|reflexivity].
        apply (validate_field_status key schema args validated) in Hf as [e0 He0].
        congruence. }
      rewrite Hf. now apply (IH mid).
    + assert (Hf : field_fails args (key, schema) = true)
        by (apply (validate_field_status key schema args validated); eauto).
      rewrite Hf. injection Hrun as <-.
      exists key, (map fst (filter (field_fails args) rest)). now split.
Qed.

End ValidatorValues.

(** X5 (P3, defaults apply on omission).  When validation succeeds on a
    shape without repeated keys, each declared field is either left out of
    the output, which happens exactly for an absent optional field without
    default, or present with the value that [schema.parse] returns for the
    supplied argument; for an absent field with a default that is the
    value of [schema.parse(undefined)]. *)
Theorem validated_value_of_field `{ZodLib} (zodSchema : ZodRawShape)
    (args validated : value) (key : string) (schema : ZodType) :
  NoDup (map fst zodSchema) ->
  In (key, schema) zodSchema ->
  validateWithZod zodSchema args = Return validated ->
  if skipped_field args key schema
  then ~ In key (own_keys validated)
  else In key (own_keys validated)
       /\ zod_parse schema (get_prop args key)
          = Return (get_prop validated key).
Proof.
  intros Hnd Hin. unfold validateWithZod.
  destruct (validate_entries zodSchema args []) as [out|e] eqn:Hrun;
    cbn [bind]; [|discriminate].
  intros [= <-]. cbn [own_keys get_prop].
  pose proof (validate_entries_lookup zodSchema args [] out key schema
                Hnd Hin Hrun) as Hl.
  destruct (skipped_field args key schema).
  - now apply assoc_get_none_not_in.
  - destruct Hl as (v & Hparse & Hget). rewrite Hget.
    split; [now apply (assoc_get_in out key v) | exact Hparse].
Qed.

(** X5, at the [optional_test] shape of the test suite with the arguments
    [{required: 'test'}], run with the reference parser: the default 42 is
    filled in for [withDefault], and [optional] is left out. *)
Lemma validated_value_of_field_witness :
  (In "withDefault"
      (own_keys (VObj [("required", VStr "test"); ("withDefault", VNum 42)]))
   /\ ZodModel.parse
        (ZodDefault (ZodOptional (ZodNumber [] None) None) (VNum 42) None)
        VUndefined
      = Return (VNum 42))
  /\ ~ In "optional"
         (own_keys (VObj [("required", VStr "test"); ("withDefault", VNum 42)])).
Proof.
  split.
  - exact (@validated_value_of_field ZodModel.lib
             [("required", ZodString [] None);
              ("optional", ZodOptional (ZodString [] None) None);
              ("withDefault",
               ZodDefault (ZodOptional (ZodNumber [] None) None) (VNum 42) None)]
             (VObj [("required", VStr "test")])
             (VObj [("required", VStr "test"); ("withDefault", VNum 42)])
             "withDefault"
             (ZodDefault (ZodOptional (ZodNumber [] None) None) (VNum 42) None)
             ltac:(repeat constructor; simpl; intuition discriminate)
             ltac:(simpl; tauto)
             eq_refl).
  - exact (@validated_value_of_field ZodModel.lib
             [("required", ZodString [] None);
              ("optional", ZodOptional (ZodString [] None) None);
              ("withDefault",
               ZodDefault (ZodOptional (ZodNumber [] None) None) (VNum 42) None)]
             (VObj [("required", VStr "test")])
             (VObj [("required", VStr "test"); ("withDefault", VNum 42)])
             "optional"
             (ZodOptional (ZodString [] None) None)
             ltac:(repeat constructor; simpl; intuition discriminate)
             ltac:(simpl; tauto)
             eq_refl).
Defined.

(** X6.  Validation succeeds exactly when no declared field fails on its
    own; when it fails, the single reported path is the first of the
    failing fields in iteration order. *)
Theorem validation_succeeds_iff_no_field_fails `{ZodLib}
    (zodSchema : ZodRawShape) (args : value) :
  ((exists validated, validateWithZod zodSchema args = Return validated)
   <-> failing_fields zodSchema args = [])
  /\ (forall e,
        validateWithZod zodSchema args = Throw e ->
        exists key rest,
          failing_fields zodSchema args = key :: rest
          /\ reported_paths e = [[key]]).
Proof.
  unfold validateWithZod, failing_fields. split.
  - split.
    + intros [validated Hv].
      destruct (validate_entries zodSchema args []) as [out|e] eqn:Hrun;
        [|discriminate].
      destruct (validate_entries_return_iff zodSchema args []) as [Hto _].
      rewrite Hto by eauto. reflexivity.
    + intros Hnone.
      destruct (filter (field_fails args) zodSchema) eqn:Hf; [|discriminate].
      destruct (validate_entries_return_iff zodSchema args []) as [_ Hfrom].
      destruct (Hfrom Hf) as [out Hout]. rewrite Hout. cbn. eauto.
  - intros e.
    destruct (validate_entries zodSchema args []) as [out|e'] eqn:Hrun;
      cbn [bind]; [discriminate|].
    intros [= <-]. now apply (validate_entries_first_failure zodSchema args []).
Qed.

(** X7.  On arguments that are [null] or [undefined], [validateWithZod]
    returns an empty object for the empty shape and, for any other shape,
    fails at its first key: the [TypeError] of the property read (here
    with V8's wording of its message) is caught like a parse failure, and
    [schema.parse] is not consulted. *)
Theorem validation_of_nullish_arguments `{ZodLib} (args : value) :
  is_nullish args = true ->
  validateWithZod [] args = Return (VObj [])
  /\ forall key schema rest,
       validateWithZod ((key, schema) :: rest) args
       = Throw (field_failure key
                  (new_TypeError
                     ("Cannot read properties of " ++ ToString args
                      ++ " (reading '" ++ key ++ "')"))).
Proof.
  intros Hn. split; [reflexivity|].
  intros key schema rest. unfold validateWithZod.
  cbn [validate_entries]. unfold validate_field, get_prop_strict.
  now rewrite Hn.
Qed.

(** X7, at [null] with the parser of the reference instance. *)
Lemma validation_of_nullish_arguments_witness :
  @validateWithZod ZodModel.lib [] VNull = Return (VObj [])
  /\ forall key schema rest,
       @validateWithZod ZodModel.lib ((key, schema) :: rest) VNull
       = Throw (@field_failure ZodModel.lib key
                  (new_TypeError
                     ("Cannot read properties of " ++ ToString VNull
                      ++ " (reading '" ++ key ++ "')"))).
Proof.
  exact (@validation_of_nullish_arguments ZodModel.lib VNull eq_refl).
Defined.

(** ** The capability registry *)

Section MapFacts.
Context {A : Type}.
Implicit Types (l : list (string * A)) (k : string) (a : A).

Lemma assoc_set_present l k a :
  In k (map fst l) -> map fst (assoc_set l k a) = map fst l.
Proof.
  induction l as [|[k0 a0] l IH]; cbn; [tauto|].
  destruct (k0 =? k)%string eqn:E.
  - apply String.eqb_eq in E. now subst.
  - apply String.eqb_neq in E. intros [Hk|Hin]; [congruence|].
    cbn. now rewrite IH.
Qed.

Lemma assoc_set_NoDup l k a :
  NoDup (map fst l) -> NoDup (map fst (assoc_set l k a)).
Proof.
  intros Hnd. destruct (in_dec string_dec k (map fst l)) as [Hin|Hout].
  - now rewrite assoc_set_present.
  - rewrite assoc_set_fresh by exact Hout.
    apply NoDup_app; [exact Hnd | repeat constructor; tauto |].
    intros x Hx [<-|[]]. contradiction.
Qed.

Lemma assoc_set_entries l k a k' a' :
  In (k', a') (assoc_set l k a) -> (k' = k /\ a' = a) \/ In (k', a') l.
Proof.
  induction l as [|[k0 a0] l IH]; cbn.
  - intros [[= <- <-]|[]]. now left.
  - destruct (k0 =? k)%string eqn:E; cbn.
    + intros [[= <- <-]|Hin]; [now left | right; now right].
    + intros [Heq|Hin]; [right; now left|].
      destruct (IH Hin); [now left | right; now right].
Qed.

Lemma assoc_set_well_keyed (name_of : A -> string) l k a :
  name_of a = k -> well_keyed name_of l -> well_keyed name_of (assoc_set l k a).
Proof.
  intros Hname [Hnd Hkeys]. split; [now apply assoc_set_NoDup|].
  intros k' a' Hin. apply assoc_set_entries in Hin as [[-> ->]|Hin]; auto.
Qed.

Lemma assoc_set_length l k a :
  length (assoc_set l k a)
  = if in_dec string_dec k (map fst l) then length l else S (length l).
Proof.
  rewrite <- !(length_map fst).
  destruct (in_dec string_dec k (map fst l)) as [Hin|Hout].
  - now rewrite assoc_set_present.
  - rewrite assoc_set_fresh by exact Hout. rewrite length_app. cbn. lia.
Qed.

End MapFacts.

Lemma built_tools_well_keyed `{ZodLib} (this : MCPServer) :
  built this -> well_keyed tool_name (tools this).
Proof.
  induction 1; cbn [tools tool resource prompt new_MCPServer]; try assumption.
  - split; [constructor | intros k a []].
  - now apply assoc_set_well_keyed.
Qed.

Lemma built_resources_well_keyed `{ZodLib} (this : MCPServer) :
  built this -> well_keyed resource_name (resources this).
Proof.
  induction 1; cbn [resources tool resource prompt new_MCPServer];
    try assumption.
  - split; [constructor | intros k a []].
  - now apply assoc_set_well_keyed.
Qed.

Lemma built_prompts_well_keyed `{ZodLib} (this : MCPServer) :
  built this -> well_keyed prompt_name (prompts this).
Proof.
  induction 1; cbn [prompts tool resource prompt new_MCPServer];
    try assumption.
  - split; [constructor | intros k a []].
  - now apply assoc_set_well_keyed.
Qed.

(** X8.  Registry invariant: in every server that the registration
    interface can build, each of the three registries stores no name twice
    and stores every entry under the entry's own name. *)
Theorem built_registries_well_keyed `{ZodLib} (this : MCPServer) :
  built this ->
  well_keyed tool_name (tools this)
  /\ well_keyed resource_name (resources this)
  /\ well_keyed prompt_name (prompts this).
Proof.
  intros Hb. split; [|split].
  - now apply built_tools_well_keyed.
  - now apply built_resources_well_keyed.
  - now apply built_prompts_well_keyed.
Qed.

(** X8, on the example server. *)
Lemma built_registries_well_keyed_witness :
  well_keyed tool_name (tools Example.server)
  /\ well_keyed resource_name (resources Example.server)
  /\ well_keyed prompt_name (prompts Example.server).
Proof.
  apply (@built_registries_well_keyed ZodModel.lib Example.server).
  unfold Example.server.
  apply (@built_resource ZodModel.lib), (@built_resource ZodModel.lib),
        (@built_tool ZodModel.lib).
  unfold Example.empty_server. apply (@built_new ZodModel.lib).
Defined.

Lemma names_of_well_keyed {A : Type} (name_of : A -> string)
    (m : list (string * A)) :
  well_keyed name_of m -> map name_of (Map_values m) = map fst m.
Proof.
  intros [_ Hkeys]. unfold Map_values.
  induction m as [|[k a] m IH]; [reflexivity|].
  cbn. rewrite (Hkeys k a) by now left.
  f_equal. apply IH. intros k' a' Hin. apply Hkeys. now right.
Qed.

Lemma NoDup_map_VStr (l : list string) : NoDup l -> NoDup (map VStr l).
Proof.
  induction 1 as [|x l Hx Hnd IH]; cbn; constructor; [|exact IH].
  intros Hin. apply in_map_iff in Hin as (y & [= ->] & Hy). contradiction.
Qed.

(** X9.  On a built server the three list methods answer with one element
    per registered name, in first-registration order and without
    repetition, whatever [params] the request carries. *)
Theorem list_methods_enumerate_registries `{ZodLib} (this : MCPServer)
    (request : value) :
  built this ->
  (get_prop request "method" = VStr "tools/list" ->
   exists result,
     handleRequest this request = Return result
     /\ listed_names result "tools" = map VStr (map fst (tools this))
     /\ NoDup (listed_names result "tools"))
  /\ (get_prop request "method" = VStr "resources/list" ->
      exists result,
        handleRequest this request = Return result
        /\ listed_names result "resources" = map VStr (map fst (resources this))
        /\ NoDup (listed_names result "resources"))
  /\ (get_prop request "method" = VStr "prompts/list" ->
      exists result,
        handleRequest this request = Return result
        /\ listed_names result "prompts" = map VStr (map fst (prompts this))
        /\ NoDup (listed_names result "prompts")).
Proof.
  intros Hb.
  pose proof (built_tools_well_keyed this Hb) as Ht.
  pose proof (built_resources_well_keyed this Hb) as Hr.
  pose proof (built_prompts_well_keyed this Hb) as Hp.
  split; [|split]; intros Hmethod;
    rewrite (handleRequest_dispatch this request _ Hmethod);
    eexists; (split; [reflexivity|]);
    unfold listed_names;
    cbn [get_prop assoc_get String.eqb Ascii.eqb Bool.eqb array_elems];
    rewrite map_map; cbn [get_prop assoc_get String.eqb Ascii.eqb Bool.eqb];
    rewrite <- (map_map _ VStr).
  - rewrite (names_of_well_keyed tool_name _ Ht).
    split; [reflexivity | apply NoDup_map_VStr, Ht].
  - rewrite (names_of_well_keyed resource_name _ Hr).
    split; [reflexivity | apply NoDup_map_VStr, Hr].
  - rewrite (names_of_well_keyed prompt_name _ Hp).
    split; [reflexivity | apply NoDup_map_VStr, Hp].
Qed.

Lemma example_server_built : @built ZodModel.lib Example.server.
Proof.
  unfold Example.server.
  apply (@built_resource ZodModel.lib), (@built_resource ZodModel.lib),
        (@built_tool ZodModel.lib).
  unfold Example.empty_server. apply (@built_new ZodModel.lib).
Qed.

(** X9, on the example server. *)
Lemma list_methods_enumerate_registries_witness :
  exists result,
    handleRequest Example.server (Example.request 9 "tools/list" VUndefined)
    = Return result
    /\ listed_names result "tools" = [VStr "divide"]
    /\ NoDup (listed_names result "tools").
Proof.
  exact (proj1 (@list_methods_enumerate_registries ZodModel.lib Example.server
                  (Example.request 9 "tools/list" VUndefined)
                  example_server_built) eq_refl).
Defined.

Lemma tools_call_run this request name :
  get_prop request "method" = VStr "tools/call" ->
  get_prop (get_prop request "params") "name" = VStr name ->
  name <> "" ->
  handleRequest this request
  = match assoc_get name (tools this) with
    | None => Throw (new_Error ("Tool not found: " ++ name))
    | Some entry =>
        try_catch
          (tool_handler entry
             (js_or (get_prop (get_prop request "params") "arguments") (VObj [])))
          (fun error => Return (tool_error_result error))
    end.
Proof.
  intros Hmethod Hname Hne.
  rewrite (handleRequest_dispatch this request "tools/call" Hmethod).
  cbn [dispatch strict_eq_str String.eqb Ascii.eqb Bool.eqb].
  unfold handleToolsCall. rewrite opt_chain_get, Hname.
  cbn [truthy Map_get ToString]. apply String.eqb_neq in Hne. now rewrite Hne.
Qed.

(** X10 (P4, re-registration).  Registering a tool under a name that is
    already registered replaces the entry in place: the registry keeps its
    names and their order, and every [tools/call] of that name is answered
    as if only the second registration had been made. *)
Theorem tool_reregistration_replaces `{ZodLib} (this : MCPServer) (name : string)
    (schema1 schema2 : ZodRawShape) (handler1 handler2 : UserHandler)
    (request : value) :
  get_prop request "method" = VStr "tools/call" ->
  get_prop (get_prop request "params") "name" = VStr name ->
  map fst (tools (tool (tool this name schema1 handler1) name schema2 handler2))
  = map fst (tools (tool this name schema1 handler1))
  /\ handleRequest (tool (tool this name schema1 handler1) name schema2 handler2)
       request
     = handleRequest (tool this name schema2 handler2) request.
Proof.
  intros Hmethod Hname. split.
  - cbn [tools tool]. apply assoc_set_present.
    apply (assoc_get_in _ name _ (assoc_get_set_eq (tools this) name _)).
  - rewrite !(handleRequest_dispatch _ request "tools/call" Hmethod).
    cbn [dispatch strict_eq_str String.eqb Ascii.eqb Bool.eqb].
    unfold handleToolsCall. rewrite opt_chain_get, Hname.
    cbn [Map_get tools tool]. now rewrite !assoc_get_set_eq.
Qed.

(** X10, on the example server: a second [divide] that always answers. *)
Lemma tool_reregistration_replaces_witness :
  map fst
    (tools (@tool ZodModel.lib
              (@tool ZodModel.lib Example.empty_server "divide"
                 Example.divide_schema Example.divide_handler)
              "divide" [] Example.readme_handler))
  = ["divide"]
  /\ handleRequest
       (@tool ZodModel.lib
          (@tool ZodModel.lib Example.empty_server "divide"
             Example.divide_schema Example.divide_handler)
          "divide" [] Example.readme_handler)
       Example.divide_by_zero
     = handleRequest
         (@tool ZodModel.lib Example.empty_server "divide" []
            Example.readme_handler)
         Example.divide_by_zero.
Proof.
  exact (@tool_reregistration_replaces ZodModel.lib Example.empty_server "divide"
           Example.divide_schema [] Example.divide_handler
           Example.readme_handler Example.divide_by_zero eq_refl eq_refl).
Defined.



(** X12.  A call of a registered tool whose arguments validate and whose
    function returns is answered with the function's result, and the
    function receives the validated arguments, not the caller's. *)
Theorem registered_tool_call_returns `{ZodLib} (this : MCPServer) (name : string)
    (inputSchema : ZodRawShape) (handler : UserHandler)
    (request validated result : value) :
  get_prop request "method" = VStr "tools/call" ->
  get_prop (get_prop request "params") "name" = VStr name ->
  name <> "" ->
  validateWithZod inputSchema
    (js_or (get_prop (get_prop request "params") "arguments") (VObj []))
  = Return validated ->
  handler_call handler validated = Return result ->
  handleRequest (tool this name inputSchema handler) request = Return result.
Proof.
  intros Hmethod Hname Hne Hvalid Hcall.
  rewrite (tools_call_run _ request name Hmethod Hname Hne).
  cbn [tools tool]. rewrite assoc_get_set_eq. cbn [tool_handler].
  unfold validatedHandler. rewrite Hvalid. cbn [bind]. now rewrite Hcall.
Qed.

(** X12, on the example server's [divide] with the arguments
    [{a: 6, b: 3, extra: true}]. *)
Lemma registered_tool_call_returns_witness :
  handleRequest
    (@tool ZodModel.lib Example.empty_server "divide" Example.divide_schema
       Example.divide_handler)
    (Example.request 10 "tools/call"
       (VObj [("name", VStr "divide");
              ("arguments",
               VObj [("a", VNum 6); ("b", VNum 3); ("extra", VBool true)])]))
  = Return (Example.text_content "2").
Proof.
  exact (@registered_tool_call_returns ZodModel.lib Example.empty_server
           "divide" Example.divide_schema Example.divide_handler
           (Example.request 10 "tools/call"
              (VObj [("name", VStr "divide");
                     ("arguments",
                      VObj [("a", VNum 6); ("b", VNum 3);
                            ("extra", VBool true)])]))
           (VObj [("a", VNum 6); ("b", VNum 3)])
           (Example.text_content "2")
           eq_refl eq_refl ltac:(discriminate) eq_refl eq_refl).
Defined.

(** X13.  A call of a registered tool whose arguments do not validate is
    answered, without calling the tool's function, with the error result
    whose text is [Error: Validation error: <key>: <message>], where [key]
    is the first failing field and [message] the message of its parse
    error. *)
Theorem registered_tool_call_invalid `{ZodLib} (this : MCPServer) (name : string)
    (inputSchema : ZodRawShape) (handler : UserHandler)
    (request : value) (e : JsError) :
  get_prop request "method" = VStr "tools/call" ->
  get_prop (get_prop request "params") "name" = VStr name ->
  name <> "" ->
  validateWithZod inputSchema
    (js_or (get_prop (get_prop request "params") "arguments") (VObj []))
  = Throw e ->
  exists key rest message,
    failing_fields inputSchema
      (js_or (get_prop (get_prop request "params") "arguments") (VObj []))
    = key :: rest
    /\ err_errors e = Some [mkIssue "custom" [key] message]
    /\ forall handler',
         handleRequest (tool this name inputSchema handler') request
         = Return
             (VObj [("content",
                     VArr [VObj [("type", VStr "text");
                                 ("text",
                                  VStr ("Error: Validation error: "
                                        ++ key ++ ": " ++ message))]]);
                    ("isError", VBool true)]).
Proof.
  intros Hmethod Hname Hne Hvalid.
  assert (Hrun := Hvalid). unfold validateWithZod in Hrun.
  destruct (validate_entries inputSchema _ []) as [out|e'] eqn:He;
    cbn [bind] in Hrun; [discriminate|].
  injection Hrun as ->.
  destruct (validate_entries_first_failure _ _ _ _ He) as (key & rest & Hf & _).
  apply validate_entries_throw in He
    as (before & key' & schema & after & mid & error & Hshape & Hb & Hfield & ->).
  assert (Hkey : key' = key).
  { destruct (validate_entries_first_failure _ _ []
                (field_failure key' error)
                (validate_entries_stop before key' schema after _ [] mid error
                   Hb Hfield)) as (k2 & r2 & Hf2 & Hp2).
    rewrite <- Hshape in Hf2. unfold failing_fields in Hf.
    cbn in Hp2. congruence. }
  subst key'.
  exists key, rest, (err_message error).
  split; [exact Hf|]. split; [reflexivity|].
  intros handler'.
  rewrite (tools_call_run _ request name Hmethod Hname Hne).
  cbn [tools tool]. rewrite assoc_get_set_eq. cbn [tool_handler].
  unfold validatedHandler. rewrite Hvalid. reflexivity.
Qed.

(** X13, on the example server's [divide] called with a string for [b]. *)
Lemma registered_tool_call_invalid_witness :
  exists key rest message,
    @failing_fields ZodModel.lib Example.divide_schema
      (VObj [("a", VNum 1); ("b", VStr "zero")]) = key :: rest
    /\ Some [mkIssue "custom" ["b"] "Expected number, received string"]
       = Some [mkIssue "custom" [key] message]
    /\ forall handler',
         handleRequest
           (@tool ZodModel.lib Example.empty_server "divide"
              Example.divide_schema handler')
           (Example.request 11 "tools/call"
              (VObj [("name", VStr "divide");
                     ("arguments", VObj [("a", VNum 1); ("b", VStr "zero")])]))
         = Return
             (VObj [("content",
                     VArr [VObj [("type", VStr "text");
                                 ("text",
                                  VStr ("Error: Validation error: "
                                        ++ key ++ ": " ++ message))]]);
                    ("isError", VBool true)]).
Proof.
  exact (@registered_tool_call_invalid ZodModel.lib Example.empty_server
           "divide" Example.divide_schema Example.divide_handler
           (Example.request 11 "tools/call"
              (VObj [("name", VStr "divide");
                     ("arguments", VObj [("a", VNum 1); ("b", VStr "zero")])]))
           (@field_failure ZodModel.lib "b"
              (ZodModel.invalid_type "number" (VStr "zero")))
           eq_refl eq_refl ltac:(discriminate) eq_refl).
Defined.

(** X14.  Lookup failures of [tools/call]: a missing (falsy) name throws
    [Tool name is required], and a name that is not registered throws
    [Tool not found: <name>]; both are reported by the transport with code
    -32602 (for the second: unless the name itself contains
    [Method not found], which the first substring test would catch). *)
Theorem tools_call_lookup_failures (this : MCPServer) (request : value) :
  get_prop request "method" = VStr "tools/call" ->
  (truthy (get_prop (get_prop request "params") "name") = false ->
   throws_protocol_error this request "Tool name is required"
   /\ errorCode_of "Tool name is required" = -32602)
  /\ (truthy (get_prop (get_prop request "params") "name") = true ->
      Map_get (tools this) (get_prop (get_prop request "params") "name") = None ->
      throws_protocol_error this request
        ("Tool not found: "
         ++ ToString (get_prop (get_prop request "params") "name"))
      /\ (includes (ToString (get_prop (get_prop request "params") "name"))
            "Method not found" = false ->
          errorCode_of
            ("Tool not found: "
             ++ ToString (get_prop (get_prop request "params") "name"))
          = -32602)).
Proof.
  intros Hmethod.
  assert (Hrun : handleRequest this request
                 = handleToolsCall this (get_prop request "params")).
  { now rewrite (handleRequest_dispatch this request "tools/call" Hmethod). }
  split.
  - intros Hfalsy. split; [|reflexivity].
    apply throws_protocol_error_intro. rewrite Hrun.
    unfold handleToolsCall. now rewrite opt_chain_get, Hfalsy.
  - intros Htruthy Hnone. split.
    + apply throws_protocol_error_intro. rewrite Hrun.
      unfold handleToolsCall. rewrite opt_chain_get, Htruthy. cbn [negb].
      now rewrite Hnone.
    + intros Hno.
      set (s := ToString (get_prop (get_prop request "params") "name")) in *.
      assert (H1 : includes ("Tool not found: " ++ s) "Method not found"
                   = includes s "Method not found") by reflexivity.
      assert (H2 : includes ("Tool not found: " ++ s) "not found" = true)
        by exact (includes_middle "Tool " "not found" (": " ++ s)).
      unfold errorCode_of. now rewrite H1, Hno, H2.
Qed.

(** X14, on the example server: a call without name and a call of an
    unregistered tool, through the transport. *)
Lemma tools_call_lookup_failures_witness :
  @handleMCPRequest (JsonModel.lib
                       [Example.request 12 "tools/call" (VObj [])])
    Example.server
    (Example.wire (Example.request 12 "tools/call" (VObj [])))
    Example.json_headers CORS_HEADERS
  = Return (@createErrorResponse
              (JsonModel.lib [Example.request 12 "tools/call" (VObj [])])
              500 (-32602) "Tool name is required" CORS_HEADERS (VNum 12))
  /\ handleRequest Example.server
       (Example.request 13 "tools/call" (VObj [("name", VStr "multiply")]))
     = Throw (new_Error "Tool not found: multiply").
Proof.
  split.
  - destruct (proj1 (tools_call_lookup_failures Example.server
                       (Example.request 12 "tools/call" (VObj [])) eq_refl)
                eq_refl) as [[_ Ht] _].
    apply (Ht (JsonModel.lib [Example.request 12 "tools/call" (VObj [])])).
    repeat split.
  - exact (proj1 (proj1 (proj2 (tools_call_lookup_failures Example.server
                                  (Example.request 13 "tools/call"
                                     (VObj [("name", VStr "multiply")]))
                                  eq_refl) eq_refl eq_refl))).
Defined.

Lemma prompts_get_run this request name :
  get_prop request "method" = VStr "prompts/get" ->
  get_prop (get_prop request "params") "name" = VStr name ->
  name <> "" ->
  handleRequest this request
  = match assoc_get name (prompts this) with
    | None => Throw (new_Error ("Prompt not found: " ++ name))
    | Some entry =>
        try_catch
          (prompt_handler entry
             (js_or (get_prop (get_prop request "params") "arguments") (VObj [])))
          (fun error =>
             Throw (new_Error ("Prompt execution error: " ++ err_message error)))
    end.
Proof.
  intros Hmethod Hname Hne.
  rewrite (handleRequest_dispatch this request "prompts/get" Hmethod).
  cbn [dispatch strict_eq_str String.eqb Ascii.eqb Bool.eqb].
  unfold handlePromptsGet. rewrite opt_chain_get, Hname.
  cbn [truthy Map_get ToString]. apply String.eqb_neq in Hne. now rewrite Hne.
Qed.

(** X15.  [prompts/get] of a registered prompt: when the arguments
    validate and the function returns, the answer is the function's result;
    when the arguments do not validate, [handleRequest] throws
    [Prompt execution error: Validation error: <key>: <message>] for the
    first failing field, whatever the function is; when the function throws
    an error that is not a [ZodError], [handleRequest] throws
    [Prompt execution error: <its message>].  Unlike a tool, a prompt never
    turns a failure into a result. *)
Theorem registered_prompt_get `{ZodLib} (this : MCPServer) (name : string)
    (inputSchema : ZodRawShape) (handler : UserHandler) (request : value) :
  get_prop request "method" = VStr "prompts/get" ->
  get_prop (get_prop request "params") "name" = VStr name ->
  name <> "" ->
  (forall validated result,
     validateWithZod inputSchema
       (js_or (get_prop (get_prop request "params") "arguments") (VObj []))
     = Return validated ->
     handler_call handler validated = Return result ->
     handleRequest (prompt this name inputSchema handler) request
     = Return result)
  /\ (forall e,
        validateWithZod inputSchema
          (js_or (get_prop (get_prop request "params") "arguments") (VObj []))
        = Throw e ->
        exists key message,
          err_errors e = Some [mkIssue "custom" [key] message]
          /\ handleRequest (prompt this name inputSchema handler) request
             = Throw (new_Error
                        ("Prompt execution error: Validation error: "
                         ++ key ++ ": " ++ message)))
  /\ (forall validated error,
        validateWithZod inputSchema
          (js_or (get_prop (get_prop request "params") "arguments") (VObj []))
        = Return validated ->
        handler_call handler validated = Throw error ->
        err_name error <> "ZodError" ->
        handleRequest (prompt this name inputSchema handler) request
        = Throw (new_Error ("Prompt execution error: " ++ err_message error))).
Proof.
  intros Hmethod Hname Hne.
  assert (Hrun : handleRequest (prompt this name inputSchema handler) request
                 = try_catch
                     (validatedHandler inputSchema handler
                        (js_or (get_prop (get_prop request "params") "arguments")
                               (VObj [])))
                     (fun error =>
                        Throw (new_Error ("Prompt execution error: "
                                          ++ err_message error)))).
  { rewrite (prompts_get_run _ request name Hmethod Hname Hne).
    cbn [prompts prompt]. now rewrite assoc_get_set_eq. }
  rewrite Hrun. split; [|split].
  - intros validated result Hvalid Hcall.
    unfold validatedHandler. rewrite Hvalid. cbn [bind]. now rewrite Hcall.
  - intros e Hvalid.
    assert (He := Hvalid). unfold validateWithZod in He.
    destruct (validate_entries inputSchema _ []) as [out|e'] eqn:Hent;
      cbn [bind] in He; [discriminate|].
    injection He as ->.
    apply validate_entries_throw in Hent
      as (before & key & schema & after & mid & error & _ & _ & _ & ->).
    exists key, (err_message error). split; [reflexivity|].
    unfold validatedHandler. rewrite Hvalid. reflexivity.
  - intros validated error Hvalid Hcall Hn.
    now rewrite (validatedHandler_user_throw inputSchema handler _ validated
                   error Hvalid Hcall Hn).
Qed.

(** X15, with a prompt that requires [input], called without arguments. *)
Lemma registered_prompt_get_witness :
  exists key message,
    Some [mkIssue "custom" ["input"] "Required"]
    = Some [mkIssue "custom" [key] message]
    /\ handleRequest
         (@prompt ZodModel.lib Example.empty_server "summarize"
            [("input", ZodString [] None)] Example.readme_handler)
         (Example.request 14 "prompts/get" (VObj [("name", VStr "summarize")]))
       = Throw (new_Error
                  ("Prompt execution error: Validation error: "
                   ++ key ++ ": " ++ message)).
Proof.
  exact (proj1 (proj2 (@registered_prompt_get ZodModel.lib Example.empty_server
                         "summarize" [("input", ZodString [] None)]
                         Example.readme_handler
                         (Example.request 14 "prompts/get"
                            (VObj [("name", VStr "summarize")]))
                         eq_refl eq_refl ltac:(discriminate)))
           (@field_failure ZodModel.lib "input"
              (ZodModel.invalid_type "string" VUndefined))
           eq_refl).
Defined.

Lemma prompt_arguments_required (inputSchema : ZodRawShape) :
  required_arguments
    (VArr (map (fun entry : string * ZodType =>
                  let (key, schema) := entry in
                  VObj [("name", VStr key);
                        ("description",
                         VStr (str_or (description schema)
                                 (key ++ " parameter")));
                        ("required", VBool (negb (isZodOptional schema)))])
               inputSchema))
  = map VStr (required_keys inputSchema).
Proof.
  unfold required_arguments, required_keys. cbn [array_elems].
  induction inputSchema as [|[key schema] rest IH]; [reflexivity|].
  cbn [map filter snd]. cbn [get_prop assoc_get String.eqb Ascii.eqb Bool.eqb truthy].
  destruct (isZodOptional schema); cbn [negb map fst].
  - exact IH.
  - cbn [get_prop assoc_get String.eqb Ascii.eqb Bool.eqb]. now rewrite IH.
Qed.

(** X16.  The two descriptions of a shape agree: the arguments that a
    registered prompt lists as [required] are, in the same order, the keys
    of the [required] array that [zodToJsonSchema] gives for the same shape,
    and the prompt lists one argument per declared field. *)
Theorem prompt_arguments_match_schema `{ZodLib} (this : MCPServer)
    (name : string) (inputSchema : ZodRawShape) (handler : UserHandler) :
  exists entry,
    assoc_get name (prompts (prompt this name inputSchema handler)) = Some entry
    /\ map (fun a => get_prop a "name") (array_elems (prompt_arguments entry))
       = map VStr (map fst inputSchema)
    /\ VArr (required_arguments (prompt_arguments entry))
       = get_prop (zodToJsonSchema inputSchema) "required".
Proof.
  eexists. split; [cbn [prompts prompt]; apply assoc_get_set_eq|].
  cbn [prompt_arguments]. split.
  - cbn [array_elems]. rewrite !map_map.
    apply map_ext. now intros [key schema].
  - rewrite prompt_arguments_required.
    unfold zodToJsonSchema, object_schema.
    cbn [get_prop assoc_get String.eqb Ascii.eqb Bool.eqb].
    now rewrite schema_entries_required.
Qed.

Lemma find_assoc_set_fresh {A : Type} (test : A -> bool) (l : list (string * A))
    k a :
  ~ In k (map fst l) ->
  find test (map snd (assoc_set l k a))
  = match find test (map snd l) with
    | Some found => Some found
    | None => if test a then Some a else None
    end.
Proof.
  induction l as [|[k0 a0] l IH]; cbn; intros Hk.
  - reflexivity.
  - destruct (k0 =? k)%string eqn:E.
    + apply String.eqb_eq in E. tauto.
    + cbn. destruct (test a0); [reflexivity|]. apply IH. tauto.
Qed.

Lemma resources_read_run this request uri :
  get_prop request "method" = VStr "resources/read" ->
  get_prop (get_prop request "params") "uri" = VStr uri ->
  uri <> "" ->
  handleRequest this request
  = match find_resource this (VStr uri) with
    | None => Throw (new_Error ("Resource not found: " ++ uri))
    | Some entry =>
        try_catch (resource_handler entry (VStr uri))
          (fun error =>
             Throw (new_Error ("Resource read error: " ++ err_message error)))
    end.
Proof.
  intros Hmethod Huri Hne.
  rewrite (handleRequest_dispatch this request "resources/read" Hmethod).
  cbn [dispatch strict_eq_str String.eqb Ascii.eqb Bool.eqb].
  unfold handleResourcesRead. rewrite opt_chain_get, Huri.
  cbn [truthy ToString]. apply String.eqb_neq in Hne. now rewrite Hne.
Qed.

(** X17.  Register, then read: after a resource is registered under a new
    name with a uri that no registered resource has, a [resources/read] of
    that uri calls the new handler with the uri; its result is the answer,
    and its exception is re-thrown as a read error.  The resource is found
    by its uri; its name plays no part. *)
Theorem registered_resource_is_read (this : MCPServer) (name uri : string)
    (handler : UserHandler) (request : value) :
  get_prop request "method" = VStr "resources/read" ->
  get_prop (get_prop request "params") "uri" = VStr uri ->
  uri <> "" ->
  ~ In name (map fst (resources this)) ->
  find_resource this (VStr uri) = None ->
  handleRequest (resource this name uri handler) request
  = match handler_call handler (VStr uri) with
    | Return result => Return result
    | Throw error =>
        Throw (new_Error ("Resource read error: " ++ err_message error))
    end.
Proof.
  intros Hmethod Huri Hne Hfresh Hnone.
  rewrite (resources_read_run _ request uri Hmethod Huri Hne).
  unfold find_resource, Map_values in *. cbn [resources resource].
  rewrite find_assoc_set_fresh by exact Hfresh.
  rewrite Hnone. cbn [resource_uri strict_eq_str].
  rewrite String.eqb_refl. cbn [resource_handler].
  now destruct (handler_call handler (VStr uri)).
Qed.

(** X17, on a server without resources. *)
Lemma registered_resource_is_read_witness :
  handleRequest
    (resource Example.empty_server "missing" "file://missing"
       Example.missing_file_handler)
    Example.read_missing
  = Throw (new_Error "Resource read error: File not found on disk").
Proof.
  exact (registered_resource_is_read Example.empty_server "missing"
           "file://missing" Example.missing_file_handler Example.read_missing
           eq_refl eq_refl ltac:(discriminate) ltac:(simpl; tauto) eq_refl).
Defined.

(** X18.  For a uri the first registration wins: when a uri is already
    served by a registered resource, registering another resource under a
    new name, with the same uri or any other, does not change which
    resource a read of that uri reaches. *)
Theorem resource_uri_first_registration_wins (this : MCPServer)
    (name uri : string) (handler : UserHandler) (requested : value)
    (entry : ResourceEntry) :
  ~ In name (map fst (resources this)) ->
  find_resource this requested = Some entry ->
  find_resource (resource this name uri handler) requested = Some entry.
Proof.
  intros Hfresh Hfound. unfold find_resource, Map_values in *.
  cbn [resources resource].
  rewrite find_assoc_set_fresh by exact Hfresh. now rewrite Hfound.
Qed.

(** X18, on the example server: a second resource for [file://readme]. *)
Lemma resource_uri_first_registration_wins_witness :
  find_resource
    (resource Example.server "copy" "file://readme" Example.missing_file_handler)
    (VStr "file://readme")
  = Some (mkResource "readme" "file://readme" "Resource: readme"
            (handler_call Example.readme_handler)).
Proof.
  apply (resource_uri_first_registration_wins Example.server "copy"
           "file://readme" Example.missing_file_handler (VStr "file://readme")).
  - simpl. intuition discriminate.
  - reflexivity.
Defined.

(** X19.  The [notifications/initialized] notification has no answer:
    [handleRequest] returns [null], and the transport, when it accepted
    the envelope, responds with status 204 and an empty body instead of a
    JSON-RPC envelope. *)
Theorem initialized_notification_has_no_body (this : MCPServer)
    (request : value) :
  get_prop request "method" = VStr "notifications/initialized" ->
  handleRequest this request = Return VNull
  /\ forall (J : JsonLib) payload httpHeaders corsHeaders,
       accepted_envelope payload httpHeaders request ->
       exists response,
         handleMCPRequest this payload httpHeaders corsHeaders = Return response
         /\ statusCode response = 204
         /\ body response = "".
Proof.
  intros Hmethod.
  assert (Hrun : handleRequest this request = Return VNull)
    by now rewrite (handleRequest_dispatch this request _ Hmethod).
  split; [exact Hrun|].
  intros J payload httpHeaders corsHeaders (Hct & Hparse & Htag & Htruthy).
  unfold handleMCPRequest. rewrite Hct, Hparse. cbn [negb].
  rewrite (get_prop_strict_defined request "jsonrpc" (VStr "2.0"))
    by congruence.
  cbn [bind truthy strict_eq_str String.eqb Ascii.eqb Bool.eqb negb orb].
  rewrite Htruthy. cbn [negb]. rewrite Hrun.
  eexists. split; [reflexivity|]. split; reflexivity.
Qed.

(** X19, on the example server. *)
Lemma initialized_notification_has_no_body_witness :
  handleRequest Example.server
    (Example.request 15 "notifications/initialized" VUndefined)
  = Return VNull
  /\ forall (J : JsonLib) payload httpHeaders corsHeaders,
       accepted_envelope payload httpHeaders
         (Example.request 15 "notifications/initialized" VUndefined) ->
       exists response,
         handleMCPRequest Example.server payload httpHeaders corsHeaders
         = Return response
         /\ statusCode response = 204
         /\ body response = "".
Proof.
  exact (initialized_notification_has_no_body Example.server
           (Example.request 15 "notifications/initialized" VUndefined) eq_refl).
Defined.

(** ** The transport boundary *)

Lemma strict_eq_str_true v s : strict_eq_str v s = true -> v = VStr s.
Proof.
  destruct v; cbn; try discriminate.
  intros E. apply String.eqb_eq in E. now subst.
Qed.

(** X20.  Transport faults are settled before dispatch.  When the
    envelope is not accepted (the content type is not JSON, the body does
    not parse, the protocol tag is not ["2.0"] or the method is falsy), the
    outcome of [handleMCPRequest] does not depend on the server, and a
    response, if there is one, has status 400. *)
Theorem rejected_envelope_never_dispatched `{JsonLib} (payload : option string)
    (httpHeaders corsHeaders : Headers) :
  ~ (exists request, accepted_envelope payload httpHeaders request) ->
  forall this this',
    handleMCPRequest this payload httpHeaders corsHeaders
    = handleMCPRequest this' payload httpHeaders corsHeaders
    /\ forall response,
         handleMCPRequest this payload httpHeaders corsHeaders = Return response ->
         statusCode response = 400.
Proof.
  intros Hrej this this'. unfold handleMCPRequest.
  destruct (includes (contentType_of httpHeaders) "application/json") eqn:Hct;
    cbn [negb]; [|split; [reflexivity | now intros r [= <-]]].
  destruct (JSON_parse (str_or payload "{}")) as [message|] eqn:Hparse;
    [|split; [reflexivity | now intros r [= <-]]].
  unfold get_prop_strict.
  destruct (is_nullish message) eqn:Hn; cbn [bind];
    [split; [reflexivity | discriminate]|].
  destruct (negb (truthy (get_prop message "jsonrpc"))
            || negb (strict_eq_str (get_prop message "jsonrpc") "2.0")) eqn:Htag;
    [split; [reflexivity | now intros r [= <-]]|].
  destruct (truthy (get_prop message "method")) eqn:Hm; cbn [negb];
    [|split; [reflexivity | now intros r [= <-]]].
  exfalso. apply Hrej. exists message.
  apply orb_false_iff in Htag as [_ Htag]. apply negb_false_iff in Htag.
  apply strict_eq_str_true in Htag. now repeat split.
Qed.

(** X20, with a [text/plain] body. *)
Lemma rejected_envelope_never_dispatched_witness :
  @handleMCPRequest Example.json Example.server (Some "hello")
    [("Content-Type", "text/plain")] CORS_HEADERS
  = @handleMCPRequest Example.json Example.empty_server (Some "hello")
      [("Content-Type", "text/plain")] CORS_HEADERS
  /\ forall response,
       @handleMCPRequest Example.json Example.server (Some "hello")
         [("Content-Type", "text/plain")] CORS_HEADERS = Return response ->
       statusCode response = 400.
Proof.
  apply (@rejected_envelope_never_dispatched Example.json (Some "hello")
           [("Content-Type", "text/plain")] CORS_HEADERS).
  intros [request [Hct _]]. discriminate Hct.
Defined.

(** X21.  An accepted envelope is always answered, with a status that
    tells the three outcomes of the dispatcher apart: 500 when it throws,
    204 when it returns [null], 200 otherwise. *)
Theorem accepted_envelope_status `{JsonLib} (this : MCPServer)
    (payload : option string) (httpHeaders corsHeaders : Headers)
    (request : value) :
  accepted_envelope payload httpHeaders request ->
  exists response,
    handleMCPRequest this payload httpHeaders corsHeaders = Return response
    /\ statusCode response
       = match handleRequest this request with
         | Throw _ => 500
         | Return VNull => 204
         | Return _ => 200
         end.
Proof.
  intros Hacc.
  destruct (handleRequest this request) as [result|error] eqn:Hrun.
  - destruct Hacc as (Hct & Hparse & Htag & Hmethod).
    unfold handleMCPRequest. rewrite Hct, Hparse. cbn [negb].
    rewrite (get_prop_strict_defined request "jsonrpc" (VStr "2.0"))
      by congruence.
    cbn [bind truthy strict_eq_str String.eqb Ascii.eqb Bool.eqb negb orb].
    rewrite Hmethod. cbn [negb]. rewrite Hrun.
    destruct result; eexists; split; reflexivity.
  - exists (createErrorResponse 500 (errorCode_of (err_message error))
              (err_message error) corsHeaders (get_prop request "id")).
    split; [|reflexivity].
    exact (transport_of_throw this payload httpHeaders corsHeaders request
             error Hacc Hrun).
Qed.

(** X21, on the example server: the failing [divide] is a result (200),
    the failing read is an error (500). *)
Lemma accepted_envelope_status_witness :
  (exists response,
     @handleMCPRequest Example.json Example.server
       (Example.wire Example.divide_by_zero) Example.json_headers CORS_HEADERS
     = Return response
     /\ statusCode response = 200)
  /\ exists response,
       @handleMCPRequest Example.json Example.server
         (Example.wire Example.read_missing) Example.json_headers CORS_HEADERS
       = Return response
       /\ statusCode response = 500.
Proof.
  split.
  - apply (@accepted_envelope_status Example.json Example.server
             (Example.wire Example.divide_by_zero) Example.json_headers
             CORS_HEADERS Example.divide_by_zero).
    apply example_envelope; reflexivity.
  - apply (@accepted_envelope_status Example.json Example.server
             (Example.wire Example.read_missing) Example.json_headers
             CORS_HEADERS Example.read_missing).
    apply example_envelope; reflexivity.
Defined.

Lemma handleMCPRequest_headers `{JsonLib} this payload httpHeaders corsHeaders
    response :
  handleMCPRequest this payload httpHeaders corsHeaders = Return response ->
  headers response = spread [("Content-Type", "application/json")] corsHeaders.
Proof.
  unfold handleMCPRequest.
  destruct (negb (includes (contentType_of httpHeaders) "application/json"));
    [now intros [= <-]|].
  destruct (JSON_parse (str_or payload "{}")) as [message|];
    [|now intros [= <-]].
  destruct (get_prop_strict message "jsonrpc") as [tag|e]; cbn [bind];
    [|discriminate].
  destruct (negb (truthy tag) || negb (strict_eq_str tag "2.0"));
    [now intros [= <-]|].
  destruct (negb (truthy (get_prop message "method"))); [now intros [= <-]|].
  destruct (handleRequest this message) as [result|error];
    [|now intros [= <-]].
  destruct result; now intros [= <-].
Qed.

(** X22.  Every response of the base handler, for every server and
    every event, carries the headers [Content-Type: application/json] and
    [Access-Control-Allow-Origin: *]. *)
Theorem baseHandler_headers `{JsonLib} (this : MCPServer) (event : Event) :
  assoc_get "Content-Type" (headers (baseHandler this event))
  = Some "application/json"
  /\ assoc_get "Access-Control-Allow-Origin" (headers (baseHandler this event))
     = Some "*".
Proof.
  unfold baseHandler.
  destruct (match event_httpMethod event with
            | Some m => if (m =? "")%string
                        then event_requestContext_http_method event else Some m
            | None => event_requestContext_http_method event
            end) as [m|].
  - destruct (m =? "OPTIONS")%string; [split; reflexivity|].
    destruct (m =? "POST")%string.
    + destruct (handleMCPRequest this (event_body event) _ CORS_HEADERS)
        as [response|e] eqn:Hrun.
      * rewrite (handleMCPRequest_headers _ _ _ _ _ Hrun). split; reflexivity.
      * split; reflexivity.
    + destruct (m =? "GET")%string; split; reflexivity.
  - split; reflexivity.
Qed.

(** X23.  Only a POST reaches the server: for any other HTTP method the
    answer of the base handler does not depend on the server; it has
    status 200 and an empty body for OPTIONS and status 405 otherwise. *)
Theorem baseHandler_other_methods `{JsonLib} (this : MCPServer) (event : Event) :
  http_method event <> Some "POST" ->
  (forall this', baseHandler this' event = baseHandler this event)
  /\ (http_method event = Some "OPTIONS" ->
      statusCode (baseHandler this event) = 200
      /\ body (baseHandler this event) = "")
  /\ (http_method event <> Some "OPTIONS" ->
      statusCode (baseHandler this event) = 405).
Proof.
  unfold http_method, baseHandler.
  destruct (match event_httpMethod event with
            | Some m => if (m =? "")%string
                        then event_requestContext_http_method event else Some m
            | None => event_requestContext_http_method event
            end) as [m|]; intros Hpost.
  - destruct (m =? "OPTIONS")%string eqn:Eo.
    { split; [reflexivity|]. split; [now split|].
      apply String.eqb_eq in Eo. subst. intros Hn. now elim Hn. }
    destruct (m =? "POST")%string eqn:Ep.
    { apply String.eqb_eq in Ep. subst. now elim Hpost. }
    split; [reflexivity|]. split.
    + intros [= ->]. discriminate Eo.
    + intros _. destruct (m =? "GET")%string; reflexivity.
  - split; [reflexivity|]. split; [discriminate | reflexivity].
Qed.

(** X23, at a DELETE request. *)
Lemma baseHandler_other_methods_witness :
  (forall this',
     @baseHandler Example.json this' (mkEvent (Some "DELETE") None None None)
     = @baseHandler Example.json Example.server
         (mkEvent (Some "DELETE") None None None))
  /\ (http_method (mkEvent (Some "DELETE") None None None) = Some "OPTIONS" ->
      statusCode (@baseHandler Example.json Example.server
                    (mkEvent (Some "DELETE") None None None)) = 200
      /\ body (@baseHandler Example.json Example.server
                 (mkEvent (Some "DELETE") None None None)) = "")
  /\ (http_method (mkEvent (Some "DELETE") None None None) <> Some "OPTIONS" ->
      statusCode (@baseHandler Example.json Example.server
                    (mkEvent (Some "DELETE") None None None)) = 405).
Proof.
  apply (@baseHandler_other_methods Example.json Example.server
           (mkEvent (Some "DELETE") None None None)).
  discriminate.
Defined.

(** X24.  A POST whose body is the JSON text of [null]: the read of
    [jsonRpcMessage.jsonrpc] throws outside every [try] of
    [handleMCPRequest], and the base handler answers with status 500 and
    the generic error -32603 [Internal server error], under the basic CORS
    headers only. *)
Theorem null_message_is_internal_error `{JsonLib} (this : MCPServer)
    (event : Event) (message : value) :
  http_method event = Some "POST" ->
  includes (contentType_of (match event_headers event with
                            | Some h => h
                            | None => []
                            end)) "application/json" = true ->
  JSON_parse (str_or (event_body event) "{}") = Some message ->
  is_nullish message = true ->
  baseHandler this event
  = createErrorResponse 500 (-32603) "Internal server error"
      (withBasicCORS [("Content-Type", "application/json")]) VUndefined
  /\ headers (baseHandler this event)
     = [("Content-Type", "application/json");
        ("Access-Control-Allow-Origin", "*")].
Proof.
  unfold http_method. intros Hm Hct Hparse Hn.
  assert (Hrun : baseHandler this event
                 = createErrorResponse 500 (-32603) "Internal server error"
                     (withBasicCORS [("Content-Type", "application/json")])
                     VUndefined).
  { unfold baseHandler. rewrite Hm.
    cbn [String.eqb Ascii.eqb Bool.eqb].
    unfold handleMCPRequest. rewrite Hct, Hparse. cbn [negb].
    unfold get_prop_strict. now rewrite Hn. }
  split; [exact Hrun | now rewrite Hrun].
Qed.

(** X24, with a body that the reference decoder reads as [null]. *)
Lemma null_message_is_internal_error_witness :
  @baseHandler (JsonModel.lib [VNull]) Example.server
    (mkEvent (Some "POST") None (Some Example.json_headers) (Some "null"))
  = @createErrorResponse (JsonModel.lib [VNull]) 500 (-32603)
      "Internal server error"
      (withBasicCORS [("Content-Type", "application/json")]) VUndefined
  /\ headers
       (@baseHandler (JsonModel.lib [VNull]) Example.server
          (mkEvent (Some "POST") None (Some Example.json_headers) (Some "null")))
     = [("Content-Type", "application/json");
        ("Access-Control-Allow-Origin", "*")].
Proof.
  exact (@null_message_is_internal_error (JsonModel.lib [VNull]) Example.server
           (mkEvent (Some "POST") None (Some Example.json_headers) (Some "null"))
           VNull eq_refl eq_refl eq_refl eq_refl).
Defined.

(** ** Bearer-token authentication *)

Lemma substring_from_app (p t : string) :
  substring_from (String.length p) (p ++ t) = t.
Proof. induction p as [|c p IH]; cbn; [now destruct t | exact IH]. Qed.

Lemma prefix_split (p s : string) :
  String.prefix p s = true -> s = p ++ substring_from (String.length p) s.
Proof.
  revert s. induction p as [|c p IH]; intros s.
  - now destruct s.
  - destruct s as [|c' s]; cbn; [discriminate|].
    destruct (ascii_dec c c') as [<-|]; [|discriminate].
    intros Hp. f_equal. now apply IH.
Qed.

Lemma existsb_eqb_In (t : string) (l : list string) :
  existsb (String.eqb t) l = true <-> In t l.
Proof.
  rewrite existsb_exists. split.
  - intros (x & Hx & E). apply String.eqb_eq in E. now subst.
  - intros Hin. exists t. split; [exact Hin | apply String.eqb_refl].
Qed.

Section BearerFacts.
Context `{JsonLib}.

(** The header and token behind an accepted request. *)
Lemma validateBearerToken_authenticated event config user token :
  validateBearerToken event config = Authenticated user token ->
  authHeader_of event = Some ("Bearer " ++ token).
Proof.
  unfold validateBearerToken.
  destruct (authHeader_of event) as [h|]; cbn [truthy_str negb];
    [|discriminate].
  destruct (negb (h =? "")%string) eqn:Hh; cbn [negb]; [|discriminate].
  assert (Hs : str_or (Some h) "" = h).
  { cbn. apply negb_true_iff in Hh. now rewrite Hh. }
  rewrite Hs.
  destruct (String.prefix "Bearer " h) eqn:Hp; cbn [negb]; [|discriminate].
  apply prefix_split in Hp. cbn [String.length] in Hp.
  intros Hres.
  cut (token = substring_from 7 h); [intros ->; now rewrite <- Hp|].
  revert Hres.
  destruct (auth_validate config) as [validate|].
  - destruct (validate (substring_from 7 h) event) as [[r|]|e];
      try discriminate.
    destruct (result_isValid r); [|discriminate]. now intros [= _ <-].
  - destruct (length _ =? 0)%nat; [discriminate|].
    destruct (existsb _ _); cbn [negb]; [now intros [= _ <-] | discriminate].
Qed.

Lemma validateBearerToken_header event config token :
  authHeader_of event = Some ("Bearer " ++ token) ->
  validateBearerToken event config
  = match auth_validate config with
    | Some validate =>
        match validate token event with
        | Return (Some result) =>
            if result_isValid result then
              Authenticated
                (match result_user result with
                 | Some user => js_or user (VObj [("token", VStr token)])
                 | None => VObj [("token", VStr token)]
                 end)
                token
            else
              Rejected
                (match result_error result with
                 | Some error => error
                 | None =>
                     createAuthErrorResponse 401 "invalid_token"
                       "Invalid or expired token" WWW_Authenticate
                 end)
        | Return None =>
            Rejected (createAuthErrorResponse 401 "invalid_token"
                        "Invalid or expired token" WWW_Authenticate)
        | Throw _ =>
            Rejected (createAuthErrorResponse 500 "server_error"
                        "Authentication validation error" [])
        end
    | None =>
        if (length (valid_tokens config) =? 0)%nat then
          Rejected (createAuthErrorResponse 500 "server_error"
                      "Authentication not configured" [])
        else if negb (existsb (String.eqb token) (valid_tokens config)) then
          Rejected (createAuthErrorResponse 401 "invalid_token"
                      "Invalid or expired token" WWW_Authenticate)
        else Authenticated (VObj [("token", VStr token)]) token
    end.
Proof.
  intros Hh. unfold validateBearerToken, valid_tokens. rewrite Hh.
  change (str_or (Some ("Bearer " ++ token)) "") with ("Bearer " ++ token).
  change (truthy_str (Some ("Bearer " ++ token))) with true.
  cbn [negb]. rewrite prefix_app. cbn [negb].
  change 7%nat with (String.length "Bearer ").
  now rewrite substring_from_app.
Qed.

Lemma token_list_authenticated event config user token :
  auth_validate config = None ->
  validateBearerToken event config = Authenticated user token ->
  In token (valid_tokens config) /\ user = VObj [("token", VStr token)].
Proof.
  intros Hnone Hres.
  pose proof (validateBearerToken_authenticated _ _ _ _ Hres) as Hh.
  rewrite (validateBearerToken_header _ _ _ Hh), Hnone in Hres.
  destruct (length (valid_tokens config) =? 0)%nat; [discriminate|].
  destruct (existsb (String.eqb token) (valid_tokens config)) eqn:Hin;
    cbn [negb] in Hres; [|discriminate].
  injection Hres as <-. split; [now apply existsb_eqb_In | reflexivity].
Qed.

End BearerFacts.

(** X25.  With a token list and no custom validator, a request is
    authenticated exactly when its authorization header is [Bearer ]
    followed by one of the listed tokens; the authenticated user is then
    [{token}]. *)
Theorem token_list_accepts_exactly_listed `{JsonLib} (event : Event)
    (config : AuthConfig) (user : value) (token : string) :
  auth_validate config = None ->
  (validateBearerToken event config = Authenticated user token
   <-> authHeader_of event = Some ("Bearer " ++ token)
       /\ In token (valid_tokens config)
       /\ user = VObj [("token", VStr token)]).
Proof.
  intros Hnone. split.
  - intros Hres. split; [now apply (validateBearerToken_authenticated _ config user)|].
    now apply (token_list_authenticated event).
  - intros (Hh & Hin & ->).
    rewrite (validateBearerToken_header _ _ _ Hh), Hnone.
    destruct (valid_tokens config) as [|t l] eqn:Hl; [destruct Hin|].
    cbn [length Nat.eqb]. rewrite <- Hl in Hin.
    apply existsb_eqb_In in Hin. rewrite <- Hl. now rewrite Hin.
Qed.

(** X25, with the list [[secret]] and the header [Bearer secret]. *)
Lemma token_list_accepts_exactly_listed_witness :
  @validateBearerToken Example.json
    (mkEvent (Some "POST") None (Some [("Authorization", "Bearer secret")]) None)
    (mkAuthConfig "bearer-token" (Some ["secret"]) None)
  = Authenticated (VObj [("token", VStr "secret")]) "secret"
  <-> authHeader_of
        (mkEvent (Some "POST") None
           (Some [("Authorization", "Bearer secret")]) None)
      = Some ("Bearer " ++ "secret")
      /\ In "secret" (valid_tokens (mkAuthConfig "bearer-token"
                                      (Some ["secret"]) None))
      /\ VObj [("token", VStr "secret")] = VObj [("token", VStr "secret")].
Proof.
  exact (@token_list_accepts_exactly_listed Example.json
           (mkEvent (Some "POST") None
              (Some [("Authorization", "Bearer secret")]) None)
           (mkAuthConfig "bearer-token" (Some ["secret"]) None)
           (VObj [("token", VStr "secret")]) "secret" eq_refl).
Defined.

(** X26.  Authentication fails closed: with no custom validator and a
    token list that is absent or empty, no request is authenticated, and a
    request with a well-formed bearer header is rejected with status 500. *)
Theorem empty_token_list_rejects_all `{JsonLib} (event : Event)
    (config : AuthConfig) :
  auth_validate config = None ->
  valid_tokens config = [] ->
  bearer_isValid (validateBearerToken event config) = false
  /\ forall token,
       authHeader_of event = Some ("Bearer " ++ token) ->
       validateBearerToken event config
       = Rejected (createAuthErrorResponse 500 "server_error"
                     "Authentication not configured" []).
Proof.
  intros Hnone Hempty. split.
  - destruct (validateBearerToken event config) as [error|user token] eqn:Hres;
      [reflexivity|].
    destruct (token_list_authenticated event config user token Hnone Hres)
      as [Hin _].
    rewrite Hempty in Hin. destruct Hin.
  - intros token Hh.
    now rewrite (validateBearerToken_header _ _ _ Hh), Hnone, Hempty.
Qed.

(** X26, with no token list at all. *)
Lemma empty_token_list_rejects_all_witness :
  bearer_isValid
    (@validateBearerToken Example.json
       (mkEvent (Some "POST") None (Some [("Authorization", "Bearer secret")])
          None)
       (mkAuthConfig "bearer-token" None None)) = false
  /\ forall token,
       authHeader_of
         (mkEvent (Some "POST") None
            (Some [("Authorization", "Bearer secret")]) None)
       = Some ("Bearer " ++ token) ->
       @validateBearerToken Example.json
         (mkEvent (Some "POST") None (Some [("Authorization", "Bearer secret")])
            None)
         (mkAuthConfig "bearer-token" None None)
       = Rejected (@createAuthErrorResponse Example.json 500 "server_error"
                     "Authentication not configured" []).
Proof.
  exact (@empty_token_list_rejects_all Example.json
           (mkEvent (Some "POST") None
              (Some [("Authorization", "Bearer secret")]) None)
           (mkAuthConfig "bearer-token" None None) eq_refl eq_refl).
Defined.

(** X27.  A custom validator takes precedence: when one is configured,
    the token list is never consulted (the outcome is the same for every
    list), and an exception of the validator rejects the request with
    status 500. *)
Theorem custom_validator_precedence `{JsonLib} (event : Event) (type : string)
    (validate : string -> Event -> outcome (option ValidationResult)) :
  (forall tokens tokens',
     validateBearerToken event (mkAuthConfig type tokens (Some validate))
     = validateBearerToken event (mkAuthConfig type tokens' (Some validate)))
  /\ (forall tokens token e,
        authHeader_of event = Some ("Bearer " ++ token) ->
        validate token event = Throw e ->
        validateBearerToken event (mkAuthConfig type tokens (Some validate))
        = Rejected (createAuthErrorResponse 500 "server_error"
                      "Authentication validation error" [])).
Proof.
  split.
  - intros tokens tokens'. reflexivity.
  - intros tokens token e Hh Hthrow.
    rewrite (validateBearerToken_header _ _ _ Hh). cbn [auth_validate].
    now rewrite Hthrow.
Qed.

(** X28.  Every rejection in token-list mode is a response with status
    401 that carries the [WWW-Authenticate] challenge, or a response with
    status 500; both carry the CORS headers and the JSON content type. *)
Theorem token_list_rejections `{JsonLib} (event : Event) (config : AuthConfig)
    (error : Response) :
  auth_validate config = None ->
  validateBearerToken event config = Rejected error ->
  ((statusCode error = 401
    /\ assoc_get "WWW-Authenticate" (headers error)
       = assoc_get "WWW-Authenticate" WWW_Authenticate)
   \/ statusCode error = 500)
  /\ assoc_get "Content-Type" (headers error) = Some "application/json"
  /\ assoc_get "Access-Control-Allow-Origin" (headers error) = Some "*".
Proof.
  intros Hnone. unfold validateBearerToken. rewrite Hnone.
  destruct (negb (truthy_str (authHeader_of event)));
    [intros [= <-]; split; [left|]; split; reflexivity|].
  destruct (negb (String.prefix "Bearer " _));
    [intros [= <-]; split; [left|]; split; reflexivity|].
  destruct (length _ =? 0)%nat;
    [intros [= <-]; split; [right|split]; reflexivity|].
  destruct (negb _); [|discriminate].
  intros [= <-]; split; [left|]; split; reflexivity.
Qed.

(** X28, at a request without authorization header. *)
Lemma token_list_rejections_witness :
  ((statusCode
      (@createAuthErrorResponse Example.json 401 "unauthorized"
         "Authorization header is required" WWW_Authenticate) = 401
    /\ assoc_get "WWW-Authenticate"
         (headers
            (@createAuthErrorResponse Example.json 401 "unauthorized"
               "Authorization header is required" WWW_Authenticate))
       = assoc_get "WWW-Authenticate" WWW_Authenticate)
   \/ statusCode
        (@createAuthErrorResponse Example.json 401 "unauthorized"
           "Authorization header is required" WWW_Authenticate) = 500)
  /\ assoc_get "Content-Type"
       (headers
          (@createAuthErrorResponse Example.json 401 "unauthorized"
             "Authorization header is required" WWW_Authenticate))
     = Some "application/json"
  /\ assoc_get "Access-Control-Allow-Origin"
       (headers
          (@createAuthErrorResponse Example.json 401 "unauthorized"
             "Authorization header is required" WWW_Authenticate))
     = Some "*".
Proof.
  exact (@token_list_rejections Example.json
           (mkEvent (Some "POST") None (Some []) None)
           (mkAuthConfig "bearer-token" (Some ["secret"]) None)
           (@createAuthErrorResponse Example.json 401 "unauthorized"
              "Authorization header is required" WWW_Authenticate)
           eq_refl eq_refl).
Defined.

(** X29.  With a token list configured, the server is reached only with a
    listed token: when the authorization header is not [Bearer ] followed
    by a listed token, the answer of the authenticated Lambda handler does
    not depend on the server. *)
Theorem unauthenticated_request_never_dispatched `{JsonLib} (config : AuthConfig)
    (event : Event) :
  auth_validate config = None ->
  (forall token,
     authHeader_of event = Some ("Bearer " ++ token) ->
     ~ In token (valid_tokens config)) ->
  forall this this',
    createLambdaHandler this (Some config) event
    = createLambdaHandler this' (Some config) event.
Proof.
  intros Hnone Hbad this this'.
  unfold createLambdaHandler, createAuthenticatedHandler, createAuthMiddleware.
  destruct (handleCORSPreflight event); [reflexivity|].
  destruct (auth_type config =? "bearer-token")%string; [|reflexivity].
  destruct (validateBearerToken event config) as [error|user token] eqn:Hres;
    [reflexivity|].
  exfalso.
  apply (Hbad token (validateBearerToken_authenticated _ _ _ _ Hres)).
  now apply (token_list_authenticated event config user token).
Qed.

(** X29, with the list [[secret]] and the header [Bearer guess]. *)
Lemma unauthenticated_request_never_dispatched_witness :
  @createLambdaHandler Example.json Example.server
    (Some (mkAuthConfig "bearer-token" (Some ["secret"]) None))
    (mkEvent (Some "POST") None (Some [("Authorization", "Bearer guess")])
       (Example.wire Example.divide_by_zero))
  = @createLambdaHandler Example.json Example.empty_server
      (Some (mkAuthConfig "bearer-token" (Some ["secret"]) None))
      (mkEvent (Some "POST") None (Some [("Authorization", "Bearer guess")])
         (Example.wire Example.divide_by_zero)).
Proof.
  apply (@unauthenticated_request_never_dispatched Example.json
           (mkAuthConfig "bearer-token" (Some ["secret"]) None)
           (mkEvent (Some "POST") None
              (Some [("Authorization", "Bearer guess")])
              (Example.wire Example.divide_by_zero))
           eq_refl).
  intros token Hh [Hin|[]].
  cbn in Hh. injection Hh as Hh. subst token. discriminate Hin.
Defined.

(** X30.  The authenticated Lambda handler answers a CORS preflight with
    status 200, the CORS headers and an empty body without looking at the
    credentials, and hands every other request that carries a listed token
    to the base handler, whose response it returns unchanged. *)
Theorem authenticated_handler_passes_through `{JsonLib} (this : MCPServer)
    (config : AuthConfig) (event : Event) :
  (forall response,
     handleCORSPreflight event = Some response ->
     createLambdaHandler this (Some config) event = response
     /\ response = mkResponse 200 CORS_HEADERS "")
  /\ (forall token,
        handleCORSPreflight event = None ->
        auth_type config = "bearer-token" ->
        auth_validate config = None ->
        authHeader_of event = Some ("Bearer " ++ token) ->
        In token (valid_tokens config) ->
        createLambdaHandler this (Some config) event = baseHandler this event).
Proof.
  unfold createLambdaHandler, createAuthenticatedHandler, createAuthMiddleware.
  split.
  - intros response Hpre. rewrite Hpre. split; [reflexivity|].
    unfold handleCORSPreflight in Hpre.
    destruct (match event_requestContext_http_method event with
              | Some m => if (m =? "")%string then event_httpMethod event
                          else Some m
              | None => event_httpMethod event
              end) as [m|]; [|discriminate].
    destruct (m =? "OPTIONS")%string; [|discriminate]. now injection Hpre.
  - intros token Hpre Htype Hnone Hh Hin. rewrite Hpre, Htype.
    cbn [String.eqb Ascii.eqb Bool.eqb].
    rewrite (validateBearerToken_header _ _ _ Hh), Hnone.
    destruct (valid_tokens config) as [|t l] eqn:Hl; [destruct Hin|].
    cbn [length Nat.eqb]. rewrite <- Hl in Hin.
    apply existsb_eqb_In in Hin. rewrite <- Hl, Hin. reflexivity.
Qed.
